(** * Session-scoped domain gateway (fastmcp-playground)

    A shallow embedding of the two orchestrator variants of the repository,
    [orchestrator_final.py] (module [Final]) and
    [src/orchestrator/orchestrator.py] (module [Orchestrator]), and the
    properties of their session store, scope middleware and built-in tools.

    Python dictionaries keyed by strings are [gmap string _], Python sets of
    strings are [gset string]; the module-level [SESSION_DOMAIN] dictionary
    and the notifications sent to the client are threaded through a small
    state-and-exception monad. *)

From Stdlib Require Import Strings.String Strings.Ascii.
From stdpp Require Import base option list sorting gmap strings.

(** ** Python string helpers *)

(** [', '.join(l)] and friends. *)
Definition join (sep : string) (l : list string) : string := String.concat sep l.

(** [s.startswith(p)] *)
Definition startswith (s p : string) : bool := String.prefix p s.

(** [needle in hay] on strings. *)
Fixpoint contains (hay needle : string) : bool :=
  String.prefix needle hay ||
  match hay with
  | EmptyString => false
  | String _ rest => contains rest needle
  end.

(** [sorted(l)] on strings: Python compares strings by code point, which is
    [String.le] on the byte strings used here. *)
Definition sorted (l : list string) : list string := merge_sort String.le l.

(** [repr] of a string without quotes or escapes, and [str] of a list of
    such strings, as the f-string of [select_domain] prints it. *)
Definition repr_str (s : string) : string := "'" +:+ s +:+ "'".
Definition str_list (l : list string) : string :=
  "[" +:+ join ", " (repr_str <$> l) +:+ "]".

(** Truthiness of an optional string: [None] and the empty string are falsy. *)
Definition truthy (o : option string) : bool :=
  match o with
  | Some (String _ _) => true
  | _ => false
  end.

(** [a or b] where [a] is an optional string and [b] a string. *)
Definition py_or (a : option string) (b : string) : string :=
  match a with
  | Some (String c s) => String c s
  | _ => b
  end.

(** ** Configuration shared by both variants *)

(** [DOMAINS]: a dict literal; Python dicts keep insertion order, which
    [list(DOMAINS.keys())] exposes, so the table is an association list. *)
Definition DOMAINS : list (string * string) :=
  [ ("invoicing", "http://127.0.0.1:9101/mcp");
    ("products", "http://127.0.0.1:9102/mcp");
    ("users", "http://127.0.0.1:9103/mcp") ].

(** [DOMAINS.keys()] *)
Definition keys (d : list (string * string)) : list string := fst <$> d.

(** [domain in DOMAINS] *)
Definition in_DOMAINS (domain : string) : bool :=
  bool_decide (domain ∈ keys DOMAINS).

(** [ORCHESTRATOR_TOOLS], the same set in both middleware classes. *)
Definition ORCHESTRATOR_TOOLS : gset string :=
  {[ "list_domains"; "get_session_status"; "select_domain" ]}.

(** ** Requests, results and the world *)

(** The part of FastMCP's [Context] the code reads. *)
Record Context := mkContext {
  session_id : option string;
  client_id : option string
}.

(** JSON values of tool arguments and backend results. *)
Inductive Json :=
  | JNull
  | JInt (z : Z)
  | JStr (s : string)
  | JRaw (text : string).

(** The part of [MiddlewareContext] the middleware reads:
    [ctx.fastmcp_context] and, for a call, [ctx.message]. *)
Record MiddlewareContext := mkMiddlewareContext {
  fastmcp_context : option Context;
  message_name : string;
  message_arguments : gmap string Json
}.

(** A listed tool; the middleware only looks at [tool.name]. *)
Record Tool := mkTool {
  name : string;
  description : string
}.

(** What the gateway sends or forwards, in order. *)
Inductive Event :=
  | ToolListChanged
  | ResourceListChanged
  | PromptListChanged
  | Forwarded (tool : string) (arguments : gmap string Json).

(** Process-wide state: the [SESSION_DOMAIN] dict and the events emitted. *)
Record World := mkWorld {
  SESSION_DOMAIN : gmap string string;
  emitted : list Event
}.

Definition initial_world : World := mkWorld ∅ [].

(** [fastmcp.exceptions.ToolError] with its message. *)
Inductive Exn := ToolError (msg : string).

Inductive result (A : Type) :=
  | Returned (a : A)
  | Raised (e : Exn).
Arguments Returned {A} a.
Arguments Raised {A} e.

(** State and exception monad: a raise keeps the writes made before it. *)
Definition M (A : Type) : Type := World → result A * World.

Definition ret {A} (a : A) : M A := λ w, (Returned a, w).
Definition raise {A} (e : Exn) : M A := λ w, (Raised e, w).
Definition bind {A B} (k : A → M B) (m : M A) : M B :=
  λ w, match m w with
       | (Returned a, w') => k a w'
       | (Raised e, w') => (Raised e, w')
       end.
#[global] Instance M_ret : MRet M := @ret.
#[global] Instance M_bind : MBind M := @bind.
Definition read_sessions : M (gmap string string) :=
  λ w, (Returned (SESSION_DOMAIN w), w).
Definition write_session (k v : string) : M unit :=
  λ w, (Returned tt, mkWorld (<[k := v]> (SESSION_DOMAIN w)) (emitted w)).
Definition emit (e : Event) : M unit :=
  λ w, (Returned tt, mkWorld (SESSION_DOMAIN w) (emitted w ++ [e])).

(** [ctx.session_id or ctx.client_id or "default"] *)
Definition session_key (ctx : Context) : string :=
  py_or (session_id ctx) (py_or (client_id ctx) "default").

(** [getattr(ctx.fastmcp_context, "session_id", None) if ctx.fastmcp_context
    else None] *)
Definition middleware_session_id (ctx : MiddlewareContext) : option string :=
  match fastmcp_context ctx with
  | Some c => session_id c
  | None => None
  end.

(** ** Built-in tools *)

(** [list_domains], identical in both variants. *)
Definition list_domains : M (list string) := mret (sorted (keys DOMAINS)).

(** The dict returned by [get_session_status]. *)
Record SessionStatus := mkSessionStatus {
  status_session_id : string;
  selected_domain : option string;
  available_domains : list string;
  status : string
}.

(** Both variants build the same confirmation dict on success. *)
Definition confirmation (session_id domain : string) : gmap string string :=
  <["status" := "success"]>
  (<["session_id" := session_id]>
  (<["selected_domain" := domain]>
  (<["message" := "Domain '" +:+ domain +:+ "' is now active for this session"]>
   ∅))).

(** ** orchestrator_final.py *)

Module Final.

Definition get_session_status (ctx : Context) : M SessionStatus :=
  let session_id := session_key ctx in
  sessions ← read_sessions;
  let selected_domain := sessions !! session_id in
  mret {| status_session_id := session_id;
          selected_domain := selected_domain;
          available_domains := sorted (keys DOMAINS);
          status := if truthy selected_domain then "active"
                    else "no_domain_selected" |}.

Definition select_domain (domain : string) (ctx : Context)
  : M (gmap string string) :=
  if negb (in_DOMAINS domain) then
    mret (<["status" := "error"]>
          (<["message" := "Unknown domain: " +:+ domain]> ∅))
  else
    let session_id := session_key ctx in
    write_session session_id domain ;;
    mret (confirmation session_id domain).

(** [SimpleDomainMiddleware.DOMAIN_TOOLS] *)
Definition DOMAIN_TOOLS : gmap string (gset string) :=
  <["invoicing" := {[ "invoicing_create_invoice";
                      "invoicing_get_invoice";
                      "invoicing_pay_invoice" ]}]>
  (<["products" := {[ "products_create_product";
                      "products_get_product";
                      "products_list_products" ]}]>
  (<["users" := {[ "users_create_user"; "users_get_user";
                   "users_list_users" ]}]> ∅)).

Definition no_domain_selected : Exn :=
  ToolError "No domain selected. Use select_domain first.".

Definition not_available (tool_name selected_domain : string)
    (allowed_tools : gset string) : Exn :=
  ToolError ("Tool '" +:+ tool_name +:+ "' not available in domain '"
             +:+ selected_domain +:+ "'. " +:+ "Available tools: "
             +:+ join ", " (sorted (elements allowed_tools))).

(** The tools appended after the orchestrator tools: the branch
    [if session_id and session_id in SESSION_DOMAIN]. *)
Definition domain_tools (session_id : option string)
    (sessions : gmap string string) (all_tools : list Tool) : list Tool :=
  if truthy session_id then
    match sessions !! py_or session_id EmptyString with
    | Some selected_domain =>
        match DOMAIN_TOOLS !! selected_domain with
        | Some domain_tool_names =>
            filter (λ tool, name tool ∈ domain_tool_names) all_tools
        | None => []
        end
    | None => []
    end
  else [].

Definition on_list_tools (ctx : MiddlewareContext)
    (call_next : MiddlewareContext → M (list Tool)) : M (list Tool) :=
  all_tools ← call_next ctx;
  let session_id := middleware_session_id ctx in
  sessions ← read_sessions;
  let filtered_tools :=
    filter (λ tool, name tool ∈ ORCHESTRATOR_TOOLS) all_tools in
  mret (filtered_tools ++ domain_tools session_id sessions all_tools).

Definition on_call_tool {A} (ctx : MiddlewareContext)
    (call_next : MiddlewareContext → M A) : M A :=
  let tool_name := message_name ctx in
  let session_id := middleware_session_id ctx in
  if bool_decide (tool_name ∈ ORCHESTRATOR_TOOLS) then call_next ctx
  else
    sessions ← read_sessions;
    if negb (truthy session_id) then raise no_domain_selected
    else
      match sessions !! py_or session_id EmptyString with
      | None => raise no_domain_selected
      | Some selected_domain =>
          match DOMAIN_TOOLS !! selected_domain with
          | Some allowed_tools =>
              if bool_decide (tool_name ∉ allowed_tools) then
                raise (not_available tool_name selected_domain allowed_tools)
              else call_next ctx
          | None => call_next ctx
          end
      end.

End Final.

(** ** src/orchestrator/orchestrator.py *)

Module Orchestrator.

Definition get_session_status (ctx : Context) : M SessionStatus :=
  let session_id := session_key ctx in
  sessions ← read_sessions;
  let selected_domain := sessions !! session_id in
  mret {| status_session_id := session_id;
          selected_domain := selected_domain;
          available_domains := keys DOMAINS;
          status := if truthy selected_domain then "active"
                    else "no_domain_selected" |}.

Definition invalid_domain (domain : string) : Exn :=
  ToolError ("Invalid domain: " +:+ domain +:+ ". Available: "
             +:+ str_list (keys DOMAINS)).

(** The parameter is annotated [Literal["invoicing", "products", "users"]];
    the body still checks it, and is modelled for every string. *)
Definition select_domain (domain : string) (ctx : Context)
  : M (gmap string string) :=
  let session_id := session_key ctx in
  if negb (in_DOMAINS domain) then raise (invalid_domain domain)
  else
    write_session session_id domain ;;
    emit ToolListChanged ;;
    emit ResourceListChanged ;;
    emit PromptListChanged ;;
    mret (confirmation session_id domain).

(** [DomainScopeMiddleware._is_allowed_tool]; it reads the module-level
    [SESSION_DOMAIN], passed here as [sessions]. *)
Definition _is_allowed_tool (tool_name : string) (session_id : option string)
    (sessions : gmap string string) : bool :=
  if bool_decide (tool_name ∈ ORCHESTRATOR_TOOLS) then true
  else if negb (truthy session_id) then false
  else
    let selected_domain := sessions !! py_or session_id EmptyString in
    if negb (truthy selected_domain) then false
    else startswith tool_name (py_or selected_domain EmptyString +:+ "_").

Definition not_available (tool_name selected_domain : string) : Exn :=
  ToolError ("Tool '" +:+ tool_name +:+ "' is not available for this session. "
             +:+ "Current domain: " +:+ selected_domain +:+ ". "
             +:+ "Use 'select_domain' to choose a domain first.").

Definition on_list_tools (ctx : MiddlewareContext)
    (call_next : MiddlewareContext → M (list Tool)) : M (list Tool) :=
  tools ← call_next ctx;
  let session_id := middleware_session_id ctx in
  sessions ← read_sessions;
  mret (filter (λ tool, _is_allowed_tool (name tool) session_id sessions) tools).

Definition on_call_tool {A} (ctx : MiddlewareContext)
    (call_next : MiddlewareContext → M A) : M A :=
  let tool_name := message_name ctx in
  let session_id := middleware_session_id ctx in
  sessions ← read_sessions;
  if negb (_is_allowed_tool tool_name session_id sessions) then
    let selected_domain :=
      default "none" (sessions !! py_or session_id EmptyString) in
    raise (not_available tool_name selected_domain)
  else call_next ctx.

End Orchestrator.

(** ** The gateway: requests routed through the middleware

    FastMCP routes a [tools/call] through the middleware chain and then to
    the tool registered under the requested name: one of the three
    [@main.tool] functions, or else a tool of a mounted proxy, which forwards
    the call to its backend.  A [tools/list] goes through the middleware to
    the tool manager.  What the backends and the tool manager answer is input
    carried by the request. *)

Inductive ToolResult :=
  | DomainList (l : list string)
  | Status (s : SessionStatus)
  | Selection (d : gmap string string)
  | BackendResult (j : Json).

Record Server := mkServer {
  srv_get_session_status : Context → M SessionStatus;
  srv_select_domain : string → Context → M (gmap string string);
  srv_on_list_tools :
    MiddlewareContext → (MiddlewareContext → M (list Tool)) → M (list Tool);
  srv_on_call_tool :
    MiddlewareContext → (MiddlewareContext → M ToolResult) → M ToolResult
}.

Definition final_server : Server :=
  mkServer Final.get_session_status Final.select_domain
           Final.on_list_tools Final.on_call_tool.

Definition orchestrator_server : Server :=
  mkServer Orchestrator.get_session_status Orchestrator.select_domain
           Orchestrator.on_list_tools Orchestrator.on_call_tool.

Inductive Request :=
  | ListTools (c : Context) (downstream : list Tool)
  | CallTool (c : Context) (tool : string) (arguments : gmap string Json)
             (backend : result Json).

Inductive Response :=
  | Tools (l : list Tool)
  | Result (r : ToolResult).

(** The tool behind the middleware. A [select_domain] call whose [domain]
    argument is not a string fails FastMCP's argument validation before the
    function body runs. Any name other than the three built-ins is looked up
    among the mounted proxies and forwarded; [backend] is what comes back, a
    result or an error. *)
Definition run_tool (S : Server) (c : Context) (backend : result Json)
    (ctx : MiddlewareContext) : M ToolResult :=
  let tool := message_name ctx in
  if bool_decide (tool = "list_domains") then
    l ← list_domains; mret (DomainList l)
  else if bool_decide (tool = "get_session_status") then
    s ← srv_get_session_status S c; mret (Status s)
  else if bool_decide (tool = "select_domain") then
    match message_arguments ctx !! "domain" with
    | Some (JStr domain) => d ← srv_select_domain S domain c; mret (Selection d)
    | _ => raise (ToolError "Input validation error")
    end
  else
    emit (Forwarded tool (message_arguments ctx)) ;;
    match backend with
    | Returned j => mret (BackendResult j)
    | Raised e => raise e
    end.

Definition handle (S : Server) (r : Request) : M Response :=
  match r with
  | ListTools c downstream =>
      l ← srv_on_list_tools S (mkMiddlewareContext (Some c) EmptyString ∅)
                            (λ _, mret downstream);
      mret (Tools l)
  | CallTool c tool arguments backend =>
      r ← srv_on_call_tool S (mkMiddlewareContext (Some c) tool arguments)
                           (run_tool S c backend);
      mret (Result r)
  end.

(** The world after a sequence of requests. *)
Definition run (S : Server) (reqs : list Request) (w : World) : World :=
  foldl (λ w r, (handle S r w).2) w reqs.

Inductive reachable (S : Server) : World → Prop :=
  | reachable_initial : reachable S initial_world
  | reachable_step w r : reachable S w → reachable S (handle S r w).2.

(** A request that calls [select_domain] for session key [k]. *)
Definition selects_for (k : string) (r : Request) : bool :=
  match r with
  | ListTools _ _ => false
  | CallTool c tool _ _ =>
      bool_decide (tool = "select_domain") && bool_decide (session_key c = k)
  end.

(** An operation of domain [d]: its qualified name is [d], the separator
    ["_"], then the backend name. *)
Definition operation_of (d tool : string) : bool := startswith tool (d +:+ "_").

(** The listing a caller sees when the tool manager answers [downstream]. *)
Definition listing (S : Server) (ctx : MiddlewareContext)
    (downstream : list Tool) (w : World) : result (list Tool) :=
  (srv_on_list_tools S ctx (λ _, mret downstream) w).1.

Definition tools_named (names : list string) : list Tool :=
  (λ n, mkTool n EmptyString) <$> names.

(** An example catalog: the three [@main.tool] functions, then the tools of
    invoicing.py, products.py and users.py, each under its qualified name
    (the names [setup_domain_servers]'s docstring gives). It is not what
    the tool manager answers, see [mounted_catalog]. *)
Definition full_catalog : list Tool :=
  tools_named
    [ "list_domains"; "get_session_status"; "select_domain";
      "invoicing_create_invoice"; "invoicing_get_invoice";
      "invoicing_pay_invoice";
      "products_search_products"; "products_get_product";
      "products_check_stock";
      "users_get_user"; "users_update_email"; "users_list_dependents" ].

(** The tool manager's answer to [call_next] in [on_list_tools] when all
    three backends are up: the tools of the mounted proxies first, each
    with the [name] its backend gives it (the mount prefix is on the key a
    call is routed by, not on [tool.name]), then the three [@main.tool]
    functions in registration order. *)
Definition mounted_catalog : list Tool :=
  tools_named
    [ "create_invoice"; "get_invoice"; "pay_invoice";
      "search_products"; "get_product"; "check_stock";
      "get_user"; "update_email"; "list_dependents";
      "list_domains"; "get_session_status"; "select_domain" ].


Definition anonymous : Context := mkContext None None.
Definition session (s : string) : Context := mkContext (Some s) None.
Definition calling (c : Context) (tool : string) : MiddlewareContext :=
  mkMiddlewareContext (Some c) tool ∅.

(** The only write: a [select_domain] call naming a registry domain. *)
Definition selected_by (r : Request) : option (string * string) :=
  match r with
  | ListTools _ _ => None
  | CallTool c tool arguments _ =>
      if bool_decide (tool = "select_domain") then
        match arguments !! "domain" with
        | Some (JStr domain) =>
            if in_DOMAINS domain then Some (session_key c, domain) else None
        | _ => None
        end
      else None
  end.

Definition store_after (r : Request) (sessions : gmap string string)
  : gmap string string :=
  match selected_by r with
  | Some (k, d) => <[k := d]> sessions
  | None => sessions
  end.

(** The two variants, and what the store lemmas need of them. *)
Definition variant (S : Server) : Prop :=
  S = final_server ∨ S = orchestrator_server.

(** The caller of [ctx] has no selection in store [sessions]: the context
    carries no usable session id, or the store has no entry for it. *)
Definition no_selection (ctx : MiddlewareContext)
    (sessions : gmap string string) : Prop :=
  truthy (middleware_session_id ctx) = false ∨
  sessions !! py_or (middleware_session_id ctx) EmptyString = None.

(** The three list-changed notifications of [select_domain], in the order
    [send_tool_list_changed], [send_resource_list_changed],
    [send_prompt_list_changed]. *)
Definition notifications : list Event :=
  [ToolListChanged; ResourceListChanged; PromptListChanged].

Definition is_forward (e : Event) : bool :=
  match e with
  | Forwarded _ _ => true
  | _ => false
  end.

(** Worlds and requests used as examples. *)
Definition s1_invoicing : World := mkWorld {["s1" := "invoicing"]} [].
Definition s1_products : World := mkWorld {["s1" := "products"]} [].
Definition two_sessions : World :=
  mkWorld (<["s1" := "invoicing"]> (<["s2" := "products"]> ∅)) [].
Definition select (c : Context) (d : string) : Request :=
  CallTool c "select_domain" (<["domain" := JStr d]> ∅) (Returned JNull).

(** [str(e)] of a raised error. *)
Definition message (e : Exn) : string :=
  match e with
  | ToolError msg => msg
  end.

(** A world whose store maps "s1" to a string outside the registry; no
    request produces it. *)
Definition s1_unregistered : World := mkWorld {["s1" := "billing"]} [].

(** The store holds registry keys only, as every reachable store does. *)
Definition registry_valued (sessions : gmap string string) : Prop :=
  ∀ s d, sessions !! s = Some d → d ∈ keys DOMAINS.

(** ** orchestrator_v2.py

    The variant without middleware. Its [list_domains], [get_session_status]
    and [select_domain] are those of orchestrator_final.py, line for line;
    it adds [DOMAIN_CLIENTS], [setup_domain_clients] and the tool
    [list_available_tools]. *)

Module V2.

(** A value of the dict [list_available_tools] builds: a str, [None], or a
    list of str. *)
Inductive Value :=
  | Str (s : string)
  | NoneValue
  | StrList (l : list string).

Definition optional_str (o : option string) : Value :=
  match o with
  | Some s => Str s
  | None => NoneValue
  end.

(** [setup_domain_clients]: [DOMAIN_CLIENTS], here the url each client is
    built for, starts empty; building the transport and client for a url
    may raise, which is caught and logged, and the loop goes on.
    [raises url] says whether it does. *)
Definition setup_domain_clients (raises : string → bool)
  : gmap string string :=
  foldl (λ DOMAIN_CLIENTS '(domain_name, server_url),
           if raises server_url then DOMAIN_CLIENTS
           else <[domain_name := server_url]> DOMAIN_CLIENTS)
        ∅ DOMAINS.

(** [f"{selected_domain}_{t.name}"] *)
Definition qualified (selected_domain : string) (t : Tool) : string :=
  selected_domain +:+ "_" +:+ name t.

(** The function [list_available_tools] as written; [answer] is what
    [client.list_tools()] inside [async with client] gives for the url of
    the selected domain's client: the tools, or the exception raised. The
    "error" key is set only in the except branch. *)
Definition list_available_tools (DOMAIN_CLIENTS : gmap string string)
    (answer : string → result (list Tool)) (ctx : Context)
  : M (gmap string Value) :=
  let session_id := session_key ctx in
  sessions ← read_sessions;
  let selected_domain := sessions !! session_id in
  let result : gmap string Value :=
    <["session_id" := Str session_id]>
    (<["selected_domain" := optional_str selected_domain]>
    (<["orchestrator_tools" :=
         StrList [ "list_domains"; "get_session_status"; "select_domain";
                   "list_available_tools" ]]>
    (<["domain_tools" := StrList []]> ∅))) in
  if truthy selected_domain then
    match DOMAIN_CLIENTS !! py_or selected_domain EmptyString with
    | Some client =>
        match answer client with
        | Returned tools =>
            mret (<["domain_tools" :=
                      StrList (qualified (py_or selected_domain EmptyString)
                                 <$> tools)]> result)
        | Raised e => mret (<["error" := Str (message e)]> result)
        end
    | None => mret result
    end
  else mret result.

(** The declared return type, [dict[str, list[str]]]: every value is a
    list of str. *)
Definition is_str_list (v : Value) : bool :=
  match v with
  | StrList _ => true
  | _ => false
  end.
Definition declared_return_type (d : gmap string Value) : bool :=
  bool_decide (map_Forall (λ _ v, is_str_list v = true) d).

(** The tool that [@main.tool(name="list_available_tools")] registers:
    FastMCP checks what the function returns against its declared return
    type and fails the call when it does not conform; [invalid_output] is
    the error it raises then. *)
Definition list_available_tools_tool (invalid_output : Exn)
    (DOMAIN_CLIENTS : gmap string string)
    (answer : string → result (list Tool)) (ctx : Context)
  : M (gmap string Value) :=
  result ← list_available_tools DOMAIN_CLIENTS answer ctx;
  if declared_return_type result then mret result
  else raise invalid_output.

End V2.

(** ** Startup: [setup_domain_servers], [check_domain_servers],
    [main_async]

    The three functions are the same in orchestrator_final.py and
    orchestrator.py, except that orchestrator.py's [main_async] first calls
    [setup_domain_servers]. They log through [logger]; the log lines are
    the result modelled here, with what the server keeps: the mounts. *)

Module Startup.

Inductive Level := INFO | WARNING.

(** [setup_domain_servers]: the (prefix, url) pairs mounted on [main], in
    order, and the lines logged. [failure url] is the exception, if any,
    raised while building the transport, client and proxy for [url] and
    mounting it. *)
Definition setup_domain_servers (failure : string → option string)
  : list (string * string) * list (Level * string) :=
  foldl (λ '(mounts, log) '(domain_name, server_url),
           match failure server_url with
           | None =>
               (mounts ++ [(domain_name, server_url)],
                log ++ [(INFO, "✓ Mounted " +:+ domain_name +:+ " domain from "
                               +:+ server_url)])
           | Some e =>
               (mounts,
                log ++ [(WARNING, "⚠ Failed to mount " +:+ domain_name
                                  +:+ " domain: " +:+ e);
                        (INFO, "Domain " +:+ domain_name
                               +:+ " will be available when server starts")])
           end)
        ([], [(INFO, "Setting up domain server proxies...")]) DOMAINS.

(** [check_domain_servers]: the [status] dict, a key per domain in
    insertion order, and the lines logged. [failure url] is the exception,
    if any, raised by connecting to [url] and listing its tools. *)
Definition check_domain_servers (failure : string → option string)
  : list (string * bool) * list (Level * string) :=
  foldl (λ '(status, log) '(domain_name, server_url),
           match failure server_url with
           | None =>
               (status ++ [(domain_name, true)],
                log ++ [(INFO, "✓ Domain server " +:+ domain_name
                               +:+ " is available")])
           | Some e =>
               (status ++ [(domain_name, false)],
                log ++ [(WARNING, "⚠ Domain server " +:+ domain_name
                                  +:+ " not available: " +:+ e)])
           end)
        ([], []) DOMAINS.

(** The two comprehensions of [main_async] over [status.items()]. *)
Definition available_domains (status : list (string * bool)) : list string :=
  fst <$> filter (λ '(_, available), available = true) status.
Definition unavailable_domains (status : list (string * bool)) : list string :=
  fst <$> filter (λ '(_, available), available = false) status.

(** The summary lines of [main_async] after the check. *)
Definition summary (status : list (string * bool)) : list (Level * string) :=
  let available_domains := available_domains status in
  let unavailable_domains := unavailable_domains status in
  (if bool_decide (available_domains = []) then []
   else [(INFO, "✓ Available domains: " +:+ join ", " available_domains)]) ++
  (if bool_decide (unavailable_domains = []) then []
   else [(INFO, "⚠ Unavailable domains: " +:+ join ", " unavailable_domains
                +:+ " (will retry on demand)")]) ++
  [(INFO, "Orchestrator setup complete!")].

(** orchestrator_final.py's [main_async]: the lines logged. *)
Definition main_async (failure : string → option string)
  : list (Level * string) :=
  let '(status, log) := check_domain_servers failure in
  [(INFO, "Starting FastMCP Orchestrator...")] ++ log ++ summary status.

(** orchestrator.py's [main_async]: the mounts and the lines logged. *)
Definition main_async_with_setup (mount_failure failure : string → option string)
  : list (string * string) * list (Level * string) :=
  let '(mounts, setup_log) := setup_domain_servers mount_failure in
  let '(status, log) := check_domain_servers failure in
  (mounts,
   [(INFO, "Starting FastMCP Orchestrator...")] ++ setup_log ++ log
   ++ summary status).

End Startup.

(** ** test_middleware.py: the middleware keyed on tags *)

Module TestMiddleware.

(** [TestDomainScopeMiddleware._is_allowed_tool]; [sessions] is the
    instance's own [SESSION_DOMAIN]. *)
Definition _is_allowed_tool (tool_name : string)
    (tool_tags : option (gset string)) (session_id : option string)
    (sessions : gmap string string) : bool :=
  if match tool_tags with
     | Some tags => bool_decide (tags ≠ ∅) && bool_decide ("orchestrator" ∈ tags)
     | None => false
     end
  then true
  else if negb (truthy session_id) then false
  else
    let selected_domain := sessions !! py_or session_id EmptyString in
    if negb (truthy selected_domain) then false
    else startswith tool_name (py_or selected_domain EmptyString +:+ "_").

End TestMiddleware.

(** ** test_orchestrator.py: waiting for the orchestrator *)

Module TestHarness.

(** What [wait_for_orchestrator_ready] did: its return value, how many
    times it probed the port and tried the MCP connection, and the seconds
    it asked to sleep. *)
Record Waited := mkWaited {
  ready : bool;
  port_probes : nat;
  mcp_attempts : nat;
  slept : Z
}.

(** The first loop, [for i in range(10)], from index [i] with [remaining]
    iterations left: whether it left by [break], and the probes made.
    [port_open i] is what the probe of iteration [i] finds. *)
Fixpoint port_loop (port_open : nat → bool) (i remaining : nat) : bool * nat :=
  match remaining with
  | O => (false, i)
  | S remaining' =>
      if port_open i then (true, S i)
      else port_loop port_open (S i) remaining'
  end.

(** The second loop, [for attempt in range(max_retries)]: whether it
    returned True, the attempts made and the seconds slept.
    [mcp_ok attempt] says whether the connection and listing of that
    attempt succeed. *)
Fixpoint mcp_loop (mcp_ok : nat → bool) (max_retries delay : Z)
    (attempt remaining : nat) : bool * nat * Z :=
  match remaining with
  | O => (false, attempt, 0%Z)
  | S remaining' =>
      if mcp_ok attempt then (true, S attempt, 0%Z)
      else
        let '(ok, attempts, slept) :=
          mcp_loop mcp_ok max_retries delay (S attempt) remaining' in
        (ok, attempts,
         ((if bool_decide (Z.of_nat attempt < max_retries - 1)%Z
           then delay else 0) + slept)%Z)
  end.

Definition wait_for_orchestrator_ready (port_open mcp_ok : nat → bool)
    (max_retries delay : Z) : Waited :=
  let '(opened, probes) := port_loop port_open 0 10 in
  if negb opened then
    {| ready := false; port_probes := probes; mcp_attempts := 0;
       slept := Z.of_nat probes |}
  else
    let '(ok, attempts, slept) :=
      mcp_loop mcp_ok max_retries delay 0 (Z.to_nat max_retries) in
    {| ready := ok; port_probes := probes; mcp_attempts := attempts;
       slept := (Z.of_nat (probes - 1) + slept)%Z |}.

End TestHarness.

(** * Properties *)

Ltac unfold_monad :=
  unfold mbind, mret, M_bind, M_ret, bind, ret, raise,
    read_sessions, write_session, emit in *.

Example sorted_domains :
  sorted (keys DOMAINS) = ["invoicing"; "products"; "users"].
Proof. vm_compute. reflexivity. Qed.

Example invalid_message :
  (Orchestrator.select_domain "billing" anonymous initial_world).1
  = Raised (ToolError
      "Invalid domain: billing. Available: ['invoicing', 'products', 'users']").
Proof. vm_compute. reflexivity. Qed.

Lemma in_DOMAINS_true d : in_DOMAINS d = true ↔ d ∈ keys DOMAINS.
Proof. unfold in_DOMAINS. apply bool_decide_eq_true. Qed.

Lemma in_DOMAINS_false d : in_DOMAINS d = false ↔ d ∉ keys DOMAINS.
Proof. unfold in_DOMAINS. apply bool_decide_eq_false. Qed.

Lemma keys_DOMAINS d :
  d ∈ keys DOMAINS ↔ d = "invoicing" ∨ d = "products" ∨ d = "users".
Proof.
  unfold keys, DOMAINS; simpl.
  rewrite !elem_of_cons, elem_of_nil. tauto.
Qed.

Lemma session_key_nonempty c : session_key c ≠ EmptyString.
Proof.
  unfold session_key, py_or.
  destruct (session_id c) as [[|a s]|], (client_id c) as [[|b t]|]; discriminate.
Qed.

(** ** [select_domain] step by step *)

Section select.
Variables (domain : string) (ctx : Context) (w : World).

Lemma final_select_known :
  domain ∈ keys DOMAINS →
  Final.select_domain domain ctx w =
    (Returned (confirmation (session_key ctx) domain),
     mkWorld (<[session_key ctx := domain]> (SESSION_DOMAIN w)) (emitted w)).
Proof.
  intros Hd%in_DOMAINS_true. unfold Final.select_domain.
  rewrite Hd. reflexivity.
Qed.

Lemma final_select_unknown :
  domain ∉ keys DOMAINS →
  Final.select_domain domain ctx w =
    (Returned (<["status" := "error"]>
               (<["message" := "Unknown domain: " +:+ domain]> ∅)), w).
Proof.
  intros Hd%in_DOMAINS_false. unfold Final.select_domain.
  rewrite Hd. reflexivity.
Qed.

Lemma orchestrator_select_known :
  domain ∈ keys DOMAINS →
  Orchestrator.select_domain domain ctx w =
    (Returned (confirmation (session_key ctx) domain),
     mkWorld (<[session_key ctx := domain]> (SESSION_DOMAIN w))
             (emitted w ++
                [ToolListChanged; ResourceListChanged; PromptListChanged])).
Proof.
  intros Hd%in_DOMAINS_true. unfold Orchestrator.select_domain.
  rewrite Hd. unfold_monad. simpl.
  rewrite <- !app_assoc. reflexivity.
Qed.

Lemma orchestrator_select_unknown :
  domain ∉ keys DOMAINS →
  Orchestrator.select_domain domain ctx w =
    (Raised (Orchestrator.invalid_domain domain), w).
Proof.
  intros Hd%in_DOMAINS_false. unfold Orchestrator.select_domain.
  rewrite Hd. reflexivity.
Qed.

End select.

(** ** The middleware either forwards or rejects without side effect *)

Section middleware.
Variables (A : Type) (ctx : MiddlewareContext).
Variables (call_next : MiddlewareContext → M A) (w : World).

Lemma final_call_builtin :
  message_name ctx ∈ ORCHESTRATOR_TOOLS →
  Final.on_call_tool ctx call_next w = call_next ctx w.
Proof.
  intros Hb. unfold Final.on_call_tool.
  rewrite bool_decide_eq_true_2 by done. reflexivity.
Qed.

Lemma orchestrator_call_allowed :
  Orchestrator._is_allowed_tool (message_name ctx) (middleware_session_id ctx)
    (SESSION_DOMAIN w) = true →
  Orchestrator.on_call_tool ctx call_next w = call_next ctx w.
Proof.
  intros Ha. unfold Orchestrator.on_call_tool. unfold_monad.
  rewrite Ha. reflexivity.
Qed.

Lemma orchestrator_call_denied :
  Orchestrator._is_allowed_tool (message_name ctx) (middleware_session_id ctx)
    (SESSION_DOMAIN w) = false →
  Orchestrator.on_call_tool ctx call_next w =
    (Raised (Orchestrator.not_available (message_name ctx)
       (default "none"
          (SESSION_DOMAIN w !! py_or (middleware_session_id ctx) EmptyString))),
     w).
Proof.
  intros Ha. unfold Orchestrator.on_call_tool. unfold_monad.
  rewrite Ha. reflexivity.
Qed.

Lemma orchestrator_call_builtin :
  message_name ctx ∈ ORCHESTRATOR_TOOLS →
  Orchestrator.on_call_tool ctx call_next w = call_next ctx w.
Proof.
  intros Hb. apply orchestrator_call_allowed.
  unfold Orchestrator._is_allowed_tool.
  rewrite bool_decide_eq_true_2 by done. reflexivity.
Qed.

Lemma final_call_cases :
  Final.on_call_tool ctx call_next w = call_next ctx w ∨
  ∃ e, Final.on_call_tool ctx call_next w = (Raised e, w).
Proof.
  unfold Final.on_call_tool. case_bool_decide; [by left|].
  unfold_monad. simpl.
  destruct (truthy (middleware_session_id ctx)); simpl; [|by right; eexists].
  destruct (SESSION_DOMAIN w !! _) as [d|]; [|by right; eexists].
  destruct (Final.DOMAIN_TOOLS !! d) as [allowed|]; [|by left].
  case_bool_decide; [by right; eexists | by left].
Qed.

Lemma orchestrator_call_cases :
  Orchestrator.on_call_tool ctx call_next w = call_next ctx w ∨
  ∃ e, Orchestrator.on_call_tool ctx call_next w = (Raised e, w).
Proof.
  destruct (Orchestrator._is_allowed_tool (message_name ctx)
              (middleware_session_id ctx) (SESSION_DOMAIN w)) eqn:Ha.
  - left. by apply orchestrator_call_allowed.
  - right. eexists. by apply orchestrator_call_denied.
Qed.

End middleware.

(** ** What a request does to the session store *)

Lemma variant_status_pure S c w :
  variant S → (srv_get_session_status S c w).2 = w.
Proof. by intros [-> | ->]. Qed.

Lemma variant_select_store S d c w :
  variant S →
  SESSION_DOMAIN (srv_select_domain S d c w).2 =
    if in_DOMAINS d then <[session_key c := d]> (SESSION_DOMAIN w)
    else SESSION_DOMAIN w.
Proof.
  intros [-> | ->]; simpl; destruct (in_DOMAINS d) eqn:Hd.
  - apply in_DOMAINS_true in Hd. by rewrite final_select_known.
  - apply in_DOMAINS_false in Hd. by rewrite final_select_unknown.
  - apply in_DOMAINS_true in Hd. by rewrite orchestrator_select_known.
  - apply in_DOMAINS_false in Hd. by rewrite orchestrator_select_unknown.
Qed.

Lemma run_tool_store S c backend tool arguments w :
  variant S →
  SESSION_DOMAIN
    (run_tool S c backend (mkMiddlewareContext (Some c) tool arguments) w).2 =
  store_after (CallTool c tool arguments backend) (SESSION_DOMAIN w).
Proof.
  intros HS. unfold run_tool, store_after, selected_by. simpl.
  case_bool_decide as H1.
  { subst tool. by rewrite bool_decide_eq_false_2. }
  case_bool_decide as H2.
  { subst tool. rewrite bool_decide_eq_false_2 by done.
    unfold_monad. simpl.
    pose proof (variant_status_pure S c w HS) as Hp.
    destruct (srv_get_session_status S c w) as [[?|?] w']; simpl in *; by subst. }
  case_bool_decide as H3.
  - destruct (arguments !! "domain") as [[| |domain|]|]; try done.
    pose proof (variant_select_store S domain c w HS) as Hs.
    unfold_monad.
    destruct (srv_select_domain S domain c w) as [[?|?] w']; simpl in *;
      rewrite Hs; by destruct (in_DOMAINS domain).
  - unfold_monad. simpl. by destruct backend.
Qed.

Lemma handle_store S r w :
  variant S →
  SESSION_DOMAIN (handle S r w).2 = store_after r (SESSION_DOMAIN w).
Proof.
  intros HS. destruct r as [c downstream | c tool arguments backend].
  - destruct HS as [-> | ->]; reflexivity.
  - unfold handle.
    set (ctx := mkMiddlewareContext (Some c) tool arguments).
    set (next := run_tool S c backend).
    assert (srv_on_call_tool S ctx next w = next ctx w ∨
            ((tool ∉ ORCHESTRATOR_TOOLS) ∧
             (∃ e, srv_on_call_tool S ctx next w = (Raised e, w)))) as Hc.
    { destruct (decide (tool ∈ ORCHESTRATOR_TOOLS)) as [Hb|Hb].
      - left. destruct HS as [-> | ->]; simpl.
        + by apply final_call_builtin.
        + by apply orchestrator_call_builtin.
      - destruct HS as [-> | ->]; simpl.
        + destruct (final_call_cases _ ctx next w); eauto.
        + destruct (orchestrator_call_cases _ ctx next w); eauto. }
    destruct Hc as [Hc | [Hb [e Hc]]]; unfold_monad; rewrite Hc.
    + pose proof (run_tool_store S c backend tool arguments w HS) as Hr.
      fold ctx next in Hr.
      destruct (next ctx w) as [[?|?] w']; simpl in *; done.
    + simpl. unfold store_after, selected_by.
      case_bool_decide; [|done]. subst tool. exfalso. apply Hb.
      unfold ORCHESTRATOR_TOOLS. set_solver.
Qed.

Lemma store_after_other k r sessions :
  selects_for k r = false → store_after r sessions !! k = sessions !! k.
Proof.
  unfold store_after, selected_by, selects_for.
  destruct r as [|c tool arguments backend]; [done|].
  case_bool_decide; [|done]. simpl.
  destruct (arguments !! "domain") as [[| |domain|]|]; try done.
  destruct (in_DOMAINS domain); [|done].
  intros Hk%bool_decide_eq_false. by rewrite lookup_insert_ne.
Qed.

Lemma run_store_other S k reqs w :
  variant S →
  Forall (λ r, selects_for k r = false) reqs →
  SESSION_DOMAIN (run S reqs w) !! k = SESSION_DOMAIN w !! k.
Proof.
  intros HS Hreqs. revert w.
  induction Hreqs as [|r reqs Hr _ IH]; intros w; [done|].
  unfold run in *. simpl. rewrite IH, handle_store by done.
  by apply store_after_other.
Qed.

Lemma reachable_registry S w :
  variant S → reachable S w →
  ∀ s d, SESSION_DOMAIN w !! s = Some d → d ∈ keys DOMAINS.
Proof.
  intros HS Hw. induction Hw as [|w r Hw IH]; intros s d.
  - simpl. by rewrite lookup_empty.
  - rewrite handle_store by done. unfold store_after.
    destruct (selected_by r) as [[k d']|] eqn:Hsel; [|apply IH].
    destruct (decide (k = s)) as [->|Hne].
    + rewrite lookup_insert_eq. intros [= <-].
      unfold selected_by in Hsel.
      destruct r as [|c tool arguments backend]; [done|].
      case_bool_decide; [|done].
      destruct (arguments !! "domain") as [[| |domain|]|]; try done.
      destruct (in_DOMAINS domain) eqn:Hd; [|done].
      injection Hsel as _ <-. by apply in_DOMAINS_true.
    + rewrite lookup_insert_ne by done. apply IH.
Qed.

(** ** Selecting a domain *)

(** C4: selecting a string that is not a key of the registry returns the
    unknown-domain failure (an error dict in orchestrator_final.py, a
    ToolError in orchestrator.py) and leaves the world, hence the session
    store and the caller's prior selection, unchanged; the same holds for
    the call routed through the gateway; and in every reachable world every
    stored selection is a key of the registry. *)
Theorem unknown_domain_rejected :
  (∀ c d w, d ∉ keys DOMAINS →
     Final.select_domain d c w =
       (Returned (<["status" := "error"]>
                  (<["message" := "Unknown domain: " +:+ d]> ∅)), w) ∧
     Orchestrator.select_domain d c w =
       (Raised (Orchestrator.invalid_domain d), w)) ∧
  (∀ S c d arguments backend w, variant S → d ∉ keys DOMAINS →
     (handle S (CallTool c "select_domain" (<["domain" := JStr d]> arguments)
                         backend) w).2 = w) ∧
  (∀ S w, variant S → reachable S w →
     ∀ s d, SESSION_DOMAIN w !! s = Some d → d ∈ keys DOMAINS).
Proof.
  split; [|split].
  - intros c d w Hd. split.
    + by apply final_select_unknown.
    + by apply orchestrator_select_unknown.
  - intros S c d arguments backend w HS Hd.
    unfold handle. unfold_monad.
    set (ctx := mkMiddlewareContext _ _ _).
    assert (srv_on_call_tool S ctx (run_tool S c backend) w =
            run_tool S c backend ctx w) as ->.
    { assert (message_name ctx ∈ ORCHESTRATOR_TOOLS) as Hb
        by (unfold ORCHESTRATOR_TOOLS; set_solver).
      destruct HS as [-> | ->]; simpl.
      - by apply final_call_builtin.
      - by apply orchestrator_call_builtin. }
    unfold run_tool. simpl. rewrite lookup_insert_eq. unfold_monad.
    destruct HS as [-> | ->]; simpl.
    + by rewrite final_select_unknown.
    + by rewrite orchestrator_select_unknown.
  - apply reachable_registry.
Qed.

Lemma unknown_domain_rejected_witness :
  (Final.select_domain "nonexistent" (session "s1") s1_invoicing).2
    = s1_invoicing ∧
  (Orchestrator.select_domain "nonexistent" (session "s1") s1_invoicing).2
    = s1_invoicing ∧
  (handle final_server
     (CallTool (session "s1") "select_domain"
               (<["domain" := JStr "nonexistent"]> ∅) (Returned JNull))
     s1_invoicing).2 = s1_invoicing ∧
  "users" ∈ keys DOMAINS.
Proof.
  destruct unknown_domain_rejected as (Hfun & Hgw & Hinv).
  assert ("nonexistent" ∉ keys DOMAINS) as Hd by (rewrite keys_DOMAINS; intros [|[|]]; discriminate).
  destruct (Hfun (session "s1") "nonexistent" s1_invoicing Hd) as [HF HO].
  split; [by rewrite HF|]. split; [by rewrite HO|]. split.
  - apply Hgw; [by left | exact Hd].
  - apply (Hinv final_server
             (handle final_server
                (CallTool (session "s1") "select_domain"
                          (<["domain" := JStr "users"]> ∅) (Returned JNull))
                initial_world).2 (or_introl eq_refl)
             (reachable_step _ _ _ (reachable_initial _)) "s1" "users").
    vm_compute. reflexivity.
Defined.

(** C10: selection is last-write-wins and idempotent. Selecting [d1] and
    then [d2] for the same caller gives the store, and the confirmation,
    that selecting [d2] alone gives, with the caller mapped to [d2];
    selecting [d] twice gives the store and the confirmation of selecting
    it once. *)
Theorem select_last_write_wins S c d1 d2 w :
  variant S → d1 ∈ keys DOMAINS → d2 ∈ keys DOMAINS →
  let once := srv_select_domain S d2 c w in
  let both := srv_select_domain S d2 c (srv_select_domain S d1 c w).2 in
  let twice := srv_select_domain S d2 c once.2 in
  SESSION_DOMAIN both.2 = SESSION_DOMAIN once.2 ∧
  both.1 = once.1 ∧
  SESSION_DOMAIN both.2 !! session_key c = Some d2 ∧
  SESSION_DOMAIN twice.2 = SESSION_DOMAIN once.2 ∧
  twice.1 = once.1 ∧
  once.1 = Returned (confirmation (session_key c) d2).
Proof.
  intros HS H1 H2. simpl.
  destruct HS as [-> | ->]; simpl.
  - rewrite !final_select_known by done. simpl.
    rewrite !insert_insert_eq, lookup_insert_eq. done.
  - rewrite !orchestrator_select_known by done. simpl.
    rewrite !insert_insert_eq, lookup_insert_eq. done.
Qed.

Lemma select_last_write_wins_witness :
  SESSION_DOMAIN
    (Orchestrator.select_domain "users" (session "s1")
       (Orchestrator.select_domain "products" (session "s1")
          initial_world).2).2 !! "s1" = Some "users".
Proof.
  apply (select_last_write_wins orchestrator_server (session "s1")
           "products" "users" initial_world).
  - by right.
  - rewrite keys_DOMAINS. auto.
  - rewrite keys_DOMAINS. auto.
Defined.

(** C9: a successful selection writes the caller's entry and no other; a
    request of another session leaves a session's entry alone; listing the
    catalog and calling any tool but [select_domain] leave the whole store
    as it was; [list_domains] changes nothing; and asking the status of a
    session the store has never seen reports no selection and adds no
    entry. *)
Theorem store_frame S :
  variant S →
  (∀ c d w s, s ≠ session_key c →
     SESSION_DOMAIN (srv_select_domain S d c w).2 !! s = SESSION_DOMAIN w !! s) ∧
  (∀ r w s, selects_for s r = false →
     SESSION_DOMAIN (handle S r w).2 !! s = SESSION_DOMAIN w !! s) ∧
  (∀ c downstream w,
     SESSION_DOMAIN (handle S (ListTools c downstream) w).2 = SESSION_DOMAIN w) ∧
  (∀ c tool arguments backend w, tool ≠ "select_domain" →
     SESSION_DOMAIN (handle S (CallTool c tool arguments backend) w).2
       = SESSION_DOMAIN w) ∧
  (∀ w, list_domains w = (Returned ["invoicing"; "products"; "users"], w)) ∧
  (∀ c w, SESSION_DOMAIN w !! session_key c = None →
     ∃ st, srv_get_session_status S c w = (Returned st, w) ∧
           selected_domain st = None ∧ status st = "no_domain_selected").
Proof.
  intros HS. repeat split.
  - intros c d w s Hs. rewrite variant_select_store by done.
    destruct (in_DOMAINS d); [|done]. by rewrite lookup_insert_ne.
  - intros r w s Hr. rewrite handle_store by done.
    by apply store_after_other.
  - intros c downstream w. by rewrite handle_store.
  - intros c tool arguments backend w Ht. rewrite handle_store by done.
    unfold store_after, selected_by. by rewrite bool_decide_eq_false_2.
  - intros c w Hnone.
    destruct HS as [-> | ->]; simpl;
      [unfold Final.get_session_status | unfold Orchestrator.get_session_status];
      unfold_monad; rewrite Hnone; eexists; done.
Qed.

Lemma store_frame_witness :
  SESSION_DOMAIN (Final.select_domain "users" (session "s2") s1_invoicing).2
    !! "s1" = Some "invoicing" ∧
  SESSION_DOMAIN
    (handle final_server
       (CallTool (session "s1") "invoicing_get_invoice" ∅ (Returned JNull))
       s1_invoicing).2 = SESSION_DOMAIN s1_invoicing ∧
  (Final.get_session_status (session "s9") s1_invoicing).2 = s1_invoicing.
Proof.
  destruct (store_frame final_server (or_introl eq_refl))
    as (Hsel & _ & _ & Hcall & _ & Hstatus).
  split; [|split].
  - etrans; [apply (Hsel (session "s2") "users" s1_invoicing "s1")|].
    + discriminate.
    + reflexivity.
  - apply Hcall. discriminate.
  - destruct (Hstatus (session "s9") s1_invoicing eq_refl) as (st & Hst & _).
    simpl in Hst. by rewrite Hst.
Defined.

(** ** Session status *)

Lemma registry_key_truthy d : d ∈ keys DOMAINS → truthy (Some d) = true.
Proof. rewrite keys_DOMAINS. by intros [-> | [-> | ->]]. Qed.

Lemma status_of_selection S c d w :
  variant S → d ∈ keys DOMAINS →
  SESSION_DOMAIN w !! session_key c = Some d →
  srv_get_session_status S c w =
    (Returned {| status_session_id := session_key c;
                 selected_domain := Some d;
                 available_domains := sorted (keys DOMAINS);
                 status := "active" |}, w).
Proof.
  intros HS Hd Hsel.
  destruct HS as [-> | ->]; simpl;
    [unfold Final.get_session_status | unfold Orchestrator.get_session_status];
    unfold_monad; rewrite Hsel, (registry_key_truthy d Hd); reflexivity.
Qed.

(** C8: after a successful [select_domain] of registry domain [d] by a
    caller, and any later requests that are not a [select_domain] of that
    same session, [get_session_status] for that session reports [d], status
    "active" and the sorted registry keys; [get_session_status] never
    changes the world; and for a session without an entry it reports
    "no_domain_selected". *)
Theorem status_reads_selection S c c' d reqs w :
  variant S → d ∈ keys DOMAINS → session_key c' = session_key c →
  Forall (λ r, selects_for (session_key c) r = false) reqs →
  let later := run S reqs (srv_select_domain S d c w).2 in
  (srv_select_domain S d c w).1 = Returned (confirmation (session_key c) d) ∧
  srv_get_session_status S c' later =
    (Returned {| status_session_id := session_key c;
                 selected_domain := Some d;
                 available_domains := ["invoicing"; "products"; "users"];
                 status := "active" |}, later) ∧
  (∀ c0 w0, (srv_get_session_status S c0 w0).2 = w0) ∧
  (∀ c0 w0, SESSION_DOMAIN w0 !! session_key c0 = None →
     (srv_get_session_status S c0 w0).1 =
       Returned {| status_session_id := session_key c0;
                   selected_domain := None;
                   available_domains := ["invoicing"; "products"; "users"];
                   status := "no_domain_selected" |}).
Proof.
  intros HS Hd Hc Hreqs later. repeat split.
  - destruct HS as [-> | ->]; simpl.
    + by rewrite final_select_known.
    + by rewrite orchestrator_select_known.
  - rewrite <- sorted_domains, <- Hc. apply status_of_selection; [done..|].
    subst later. rewrite Hc, run_store_other by done.
    rewrite variant_select_store by done.
    apply in_DOMAINS_true in Hd. rewrite Hd. apply lookup_insert_eq.
  - intros c0 w0. by apply variant_status_pure.
  - intros c0 w0 Hnone.
    destruct HS as [-> | ->]; simpl;
      [unfold Final.get_session_status | unfold Orchestrator.get_session_status];
      unfold_monad; rewrite Hnone; reflexivity.
Qed.

Lemma status_reads_selection_witness :
  (Orchestrator.get_session_status (session "s1")
     (run orchestrator_server
        [ListTools (session "s1") full_catalog; select (session "s2") "users"]
        (Orchestrator.select_domain "products" (session "s1")
           initial_world).2)).1 =
    Returned {| status_session_id := "s1";
                selected_domain := Some "products";
                available_domains := ["invoicing"; "products"; "users"];
                status := "active" |}.
Proof.
  destruct (status_reads_selection orchestrator_server (session "s1")
              (session "s1") "products"
              [ListTools (session "s1") full_catalog;
               select (session "s2") "users"] initial_world) as (_ & H & _).
  - by right.
  - rewrite keys_DOMAINS. auto.
  - reflexivity.
  - repeat constructor.
  - exact (f_equal fst H).
Defined.

(** ** Notifications *)

Lemma orchestrator_run_tool_emitted c backend tool arguments w :
  ∃ evs,
    emitted (run_tool orchestrator_server c backend
               (mkMiddlewareContext (Some c) tool arguments) w).2
      = emitted w ++ evs ∧
    match selected_by (CallTool c tool arguments backend) with
    | Some _ => evs = notifications
    | None => Forall (λ e, is_forward e = true) evs
    end.
Proof.
  unfold run_tool, selected_by. simpl.
  case_bool_decide as H1.
  { subst tool. exists []. by rewrite app_nil_r, bool_decide_eq_false_2. }
  case_bool_decide as H2.
  { subst tool. exists []. by rewrite app_nil_r, bool_decide_eq_false_2. }
  case_bool_decide as H3.
  - destruct (arguments !! "domain") as [[| |domain|]|];
      try (exists []; rewrite app_nil_r; done).
    unfold_monad. destruct (in_DOMAINS domain) eqn:Hd.
    + apply in_DOMAINS_true in Hd.
      rewrite orchestrator_select_known by done. by eexists.
    + apply in_DOMAINS_false in Hd.
      rewrite orchestrator_select_unknown by done.
      exists []. rewrite app_nil_r. done.
  - exists [Forwarded tool arguments]. unfold_monad. simpl.
    split; [by destruct backend | by repeat constructor].
Qed.

Lemma orchestrator_handle_emitted r w :
  ∃ evs,
    emitted (handle orchestrator_server r w).2 = emitted w ++ evs ∧
    match selected_by r with
    | Some _ => evs = notifications
    | None => Forall (λ e, is_forward e = true) evs
    end.
Proof.
  destruct r as [c downstream | c tool arguments backend].
  { exists []. simpl. rewrite app_nil_r. done. }
  unfold handle. simpl.
  set (ctx := mkMiddlewareContext (Some c) tool arguments).
  set (next := run_tool orchestrator_server c backend).
  unfold_monad.
  destruct (Orchestrator._is_allowed_tool (message_name ctx)
              (middleware_session_id ctx) (SESSION_DOMAIN w)) eqn:Ha.
  - rewrite orchestrator_call_allowed by done.
    destruct (orchestrator_run_tool_emitted c backend tool arguments w)
      as (evs & Hev & Hsel).
    exists evs. split; [|done]. fold ctx next in Hev.
    by destruct (next ctx w) as [[?|?] w'].
  - rewrite orchestrator_call_denied by done.
    exists []. simpl. rewrite app_nil_r. split; [done|].
    unfold selected_by. case_bool_decide as Ht; [|done]. subst tool.
    unfold Orchestrator._is_allowed_tool in Ha. simpl in Ha.
    rewrite bool_decide_eq_true_2 in Ha; [done|].
    unfold ORCHESTRATOR_TOOLS. set_solver.
Qed.

(** C7, as the code has it: in orchestrator.py a successful
    [select_domain] emits the tool, resource and prompt list-changed
    notifications, in that order, a rejected one emits nothing, and a
    gateway request emits these notifications exactly when it is a
    successful [select_domain] (any other request emits at most forwarded
    calls); in orchestrator_final.py [select_domain] emits nothing. *)
Theorem notification_after_select :
  (∀ c d w, d ∈ keys DOMAINS →
     Orchestrator.select_domain d c w =
       (Returned (confirmation (session_key c) d),
        mkWorld (<[session_key c := d]> (SESSION_DOMAIN w))
                (emitted w ++ notifications))) ∧
  (∀ c d w, d ∉ keys DOMAINS →
     emitted (Orchestrator.select_domain d c w).2 = emitted w) ∧
  (∀ r w, ∃ evs,
     emitted (handle orchestrator_server r w).2 = emitted w ++ evs ∧
     match selected_by r with
     | Some _ => evs = notifications
     | None => Forall (λ e, is_forward e = true) evs
     end) ∧
  (∀ c d w, emitted (Final.select_domain d c w).2 = emitted w).
Proof.
  repeat split.
  - intros c d w Hd. by apply orchestrator_select_known.
  - intros c d w Hd. by rewrite orchestrator_select_unknown.
  - apply orchestrator_handle_emitted.
  - intros c d w. destruct (decide (d ∈ keys DOMAINS)).
    + by rewrite final_select_known.
    + by rewrite final_select_unknown.
Qed.

Lemma notification_after_select_witness :
  emitted (Orchestrator.select_domain "invoicing" (session "s1")
             initial_world).2 = notifications ∧
  emitted (Orchestrator.select_domain "nonexistent" (session "s1")
             initial_world).2 = [].
Proof.
  destruct notification_after_select as (Hok & Hbad & _).
  split.
  - rewrite (Hok (session "s1") "invoicing" initial_world); [reflexivity|].
    rewrite keys_DOMAINS. auto.
  - apply (Hbad (session "s1") "nonexistent" initial_world).
    rewrite keys_DOMAINS. intros [|[|]]; discriminate.
Defined.

(** C7 fails on orchestrator_final.py: a successful [select_domain], called
    directly or through the gateway, emits no notification. *)
Lemma final_select_emits_nothing :
  (Final.select_domain "invoicing" (session "s1") initial_world).1
    = Returned (confirmation "s1" "invoicing") ∧
  emitted (Final.select_domain "invoicing" (session "s1") initial_world).2
    = [] ∧
  emitted (handle final_server (select (session "s1") "invoicing")
             initial_world).2 = [].
Proof. vm_compute. done. Qed.

(** ** Qualified names *)

Lemma builtin_names tool :
  tool ∈ ORCHESTRATOR_TOOLS ↔
  tool = "list_domains" ∨ tool = "get_session_status" ∨ tool = "select_domain".
Proof.
  unfold ORCHESTRATOR_TOOLS.
  rewrite !elem_of_union, !elem_of_singleton. tauto.
Qed.

Lemma builtin_not_operation d tool :
  d ∈ keys DOMAINS → tool ∈ ORCHESTRATOR_TOOLS → operation_of d tool = false.
Proof.
  rewrite keys_DOMAINS, builtin_names.
  intros [-> | [-> | ->]] [-> | [-> | ->]]; reflexivity.
Qed.

Lemma operation_of_cons d a tool :
  operation_of d (String a tool) = true →
  ∃ d', d +:+ "_" = String a d'.
Proof.
  unfold operation_of, startswith.
  destruct (d +:+ "_") as [|b d'] eqn:Hd.
  - by destruct d.
  - simpl. destruct (ascii_dec b a) as [->|]; [eauto | done].
Qed.

Lemma operation_of_disjoint d1 d2 tool :
  d1 ∈ keys DOMAINS → d2 ∈ keys DOMAINS → d1 ≠ d2 →
  operation_of d2 tool = true → operation_of d1 tool = false.
Proof.
  rewrite !keys_DOMAINS. intros H1 H2 Hne Hop.
  destruct (operation_of d1 tool) eqn:Hop1; [exfalso | done].
  destruct tool as [|a tool].
  { destruct H1 as [-> | [-> | ->]]; discriminate. }
  apply operation_of_cons in Hop as [e2 He2].
  apply operation_of_cons in Hop1 as [e1 He1].
  destruct H1 as [-> | [-> | ->]], H2 as [-> | [-> | ->]];
    try done; vm_compute in He1, He2; congruence.
Qed.

Lemma final_table d :
  d ∈ keys DOMAINS → is_Some (Final.DOMAIN_TOOLS !! d).
Proof. rewrite keys_DOMAINS. intros [-> | [-> | ->]]; by eexists. Qed.

Lemma final_table_operation d allowed tool :
  Final.DOMAIN_TOOLS !! d = Some allowed → tool ∈ allowed →
  operation_of d tool = true.
Proof.
  unfold Final.DOMAIN_TOOLS. intros Hd Ht.
  repeat (apply lookup_insert_Some in Hd as [[<- <-] | [_ Hd]];
          [apply elem_of_union in Ht as [Ht | ->%elem_of_singleton];
             [apply elem_of_union in Ht
                as [->%elem_of_singleton | ->%elem_of_singleton]|];
           reflexivity |]).
  by rewrite lookup_empty in Hd.
Qed.

(** ** Invocation *)

Lemma orchestrator_denied_without_selection ctx sessions :
  message_name ctx ∉ ORCHESTRATOR_TOOLS → no_selection ctx sessions →
  Orchestrator._is_allowed_tool (message_name ctx) (middleware_session_id ctx)
    sessions = false.
Proof.
  intros Hb Hno. unfold Orchestrator._is_allowed_tool.
  rewrite bool_decide_eq_false_2 by done.
  destruct Hno as [-> | Hnone]; [done|].
  destruct (truthy (middleware_session_id ctx)); [|done]. simpl.
  by rewrite Hnone.
Qed.

Lemma final_call_without_selection {A} ctx
    (call_next : MiddlewareContext → M A) w :
  message_name ctx ∉ ORCHESTRATOR_TOOLS →
  no_selection ctx (SESSION_DOMAIN w) →
  Final.on_call_tool ctx call_next w = (Raised Final.no_domain_selected, w).
Proof.
  intros Hb Hno. unfold Final.on_call_tool.
  rewrite bool_decide_eq_false_2 by done.
  unfold_monad. simpl.
  destruct Hno as [-> | Hnone]; [done|].
  destruct (truthy (middleware_session_id ctx)); [|done]. simpl.
  by rewrite Hnone.
Qed.

(** C5: a call to one of the three built-in tools goes straight to the next
    handler whatever the world is; a call to any other tool by a caller
    without a selection is rejected with the no-domain error (in
    orchestrator.py the not-available error with current domain "none" when
    the store has no entry), the world is unchanged and the next handler,
    hence the backend, is not run: through the gateway nothing is
    forwarded. *)
Theorem builtins_ungated_others_need_selection :
  (∀ A ctx (call_next : MiddlewareContext → M A) w,
     message_name ctx ∈ ORCHESTRATOR_TOOLS →
     Final.on_call_tool ctx call_next w = call_next ctx w ∧
     Orchestrator.on_call_tool ctx call_next w = call_next ctx w) ∧
  (∀ A ctx (call_next : MiddlewareContext → M A) w,
     message_name ctx ∉ ORCHESTRATOR_TOOLS →
     no_selection ctx (SESSION_DOMAIN w) →
     Final.on_call_tool ctx call_next w = (Raised Final.no_domain_selected, w) ∧
     (∃ current,
        Orchestrator.on_call_tool ctx call_next w =
          (Raised (Orchestrator.not_available (message_name ctx) current), w) ∧
        (SESSION_DOMAIN w !! py_or (middleware_session_id ctx) EmptyString
           = None → current = "none"))) ∧
  (∀ S c tool arguments backend w,
     variant S → tool ∉ ORCHESTRATOR_TOOLS →
     no_selection (mkMiddlewareContext (Some c) tool arguments)
                  (SESSION_DOMAIN w) →
     ∃ e, handle S (CallTool c tool arguments backend) w = (Raised e, w)).
Proof.
  split; [|split].
  - intros A ctx call_next w Hb. split.
    + by apply final_call_builtin.
    + by apply orchestrator_call_builtin.
  - intros A ctx call_next w Hb Hno. split.
    + by apply final_call_without_selection.
    + eexists. split.
      * apply orchestrator_call_denied.
        by apply orchestrator_denied_without_selection.
      * by intros ->.
  - intros S c tool arguments backend w HS Hb Hno.
    set (ctx := mkMiddlewareContext (Some c) tool arguments) in *.
    unfold handle. fold ctx. unfold_monad.
    destruct HS as [-> | ->]; simpl.
    + rewrite final_call_without_selection by done. by eexists.
    + rewrite orchestrator_call_denied
        by (by apply orchestrator_denied_without_selection).
      by eexists.
Qed.

Lemma builtins_ungated_others_need_selection_witness :
  Final.on_call_tool (calling (session "s2") "list_domains")
    (λ _, list_domains) s1_invoicing
    = (Returned ["invoicing"; "products"; "users"], s1_invoicing) ∧
  Final.on_call_tool (calling (session "s2") "invoicing_get_invoice")
    (λ _, list_domains) s1_invoicing
    = (Raised Final.no_domain_selected, s1_invoicing) ∧
  (∃ e, handle orchestrator_server
          (CallTool (session "s2") "invoicing_get_invoice" ∅ (Returned JNull))
          s1_invoicing = (Raised e, s1_invoicing)).
Proof.
  destruct builtins_ungated_others_need_selection as (Hb & Hn & Hg).
  assert ("invoicing_get_invoice" ∉ ORCHESTRATOR_TOOLS) as Hnb.
  { rewrite builtin_names. intros [|[|]]; discriminate. }
  split; [|split].
  - etrans.
    + apply (Hb _ (calling (session "s2") "list_domains")
                (λ _, list_domains) s1_invoicing).
      rewrite builtin_names. auto.
    + reflexivity.
  - apply (Hn _ (calling (session "s2") "invoicing_get_invoice")
              (λ _, list_domains) s1_invoicing Hnb).
    right. reflexivity.
  - apply (Hg orchestrator_server (session "s2") "invoicing_get_invoice" ∅
              (Returned JNull) s1_invoicing (or_intror eq_refl) Hnb).
    right. reflexivity.
Defined.

(** ** Isolation between sessions *)

Section isolation.
Variables (ctx : MiddlewareContext) (s d other : string) (w : World).
Hypothesis Hctx : middleware_session_id ctx = Some s.
Hypothesis Hsel : SESSION_DOMAIN w !! s = Some d.
Hypothesis Hd : d ∈ keys DOMAINS.
Hypothesis Hother : other ∈ keys DOMAINS.
Hypothesis Hne : d ≠ other.

Lemma orchestrator_denies_other tool :
  operation_of other tool = true →
  Orchestrator._is_allowed_tool tool (middleware_session_id ctx)
    (SESSION_DOMAIN w) = false.
Proof.
  intros Hop. unfold Orchestrator._is_allowed_tool.
  case_bool_decide as Hb.
  { by rewrite (builtin_not_operation other tool) in Hop. }
  rewrite Hctx. destruct s as [|a s']; [done|]. simpl.
  rewrite Hsel. destruct (truthy (Some d)); [|done]. simpl.
  pose proof (operation_of_disjoint d other tool Hd Hother Hne Hop) as Hdis.
  unfold operation_of in Hdis.
  destruct d; [|done].
  rewrite keys_DOMAINS in Hd. by destruct Hd as [|[|]].
Qed.

Lemma final_hides_other downstream tool :
  operation_of other tool = true →
  tool ∉ name <$>
    (filter (λ t, name t ∈ ORCHESTRATOR_TOOLS) downstream ++
     Final.domain_tools (middleware_session_id ctx) (SESSION_DOMAIN w)
       downstream).
Proof.
  intros Hop [t [-> Ht]]%list_elem_of_fmap.
  apply elem_of_app in Ht as [Ht | Ht].
  - apply list_elem_of_filter in Ht as [Hb _].
    by rewrite (builtin_not_operation other (name t)) in Hop.
  - unfold Final.domain_tools in Ht. rewrite Hctx in Ht.
    destruct s as [|a s']; simpl in Ht; [by apply elem_of_nil in Ht|].
    rewrite Hsel in Ht.
    destruct (Final.DOMAIN_TOOLS !! d) as [allowed|] eqn:Htab;
      [|by apply elem_of_nil in Ht].
    apply list_elem_of_filter in Ht as [Hin _].
    apply (final_table_operation d allowed) in Hin; [|done].
    by rewrite (operation_of_disjoint d other (name t)) in Hin.
Qed.

Lemma final_rejects_other {A} (call_next : MiddlewareContext → M A) :
  operation_of other (message_name ctx) = true →
  ∃ e, Final.on_call_tool ctx call_next w = (Raised e, w).
Proof.
  intros Hop. unfold Final.on_call_tool.
  case_bool_decide as Hb.
  { by rewrite (builtin_not_operation other (message_name ctx)) in Hop. }
  unfold_monad. simpl. rewrite Hctx.
  destruct s as [|a s']; simpl; [by eexists|].
  rewrite Hsel. destruct (final_table d Hd) as [allowed Htab]. rewrite Htab.
  case_bool_decide as Hin; [by eexists|].
  apply (final_table_operation d allowed) in Hin; [|done].
  by rewrite (operation_of_disjoint d other (message_name ctx)) in Hin.
Qed.

End isolation.

Lemma listing_final ctx downstream w :
  listing final_server ctx downstream w =
    Returned
      (filter (λ tool, name tool ∈ ORCHESTRATOR_TOOLS) downstream ++
       Final.domain_tools (middleware_session_id ctx) (SESSION_DOMAIN w)
         downstream).
Proof. reflexivity. Qed.

Lemma listing_orchestrator ctx downstream w :
  listing orchestrator_server ctx downstream w =
    Returned
      (filter (λ tool, Orchestrator._is_allowed_tool (name tool)
                         (middleware_session_id ctx) (SESSION_DOMAIN w))
              downstream).
Proof. reflexivity. Qed.

Lemma scope_local S ctx w w' downstream (r : ToolResult) :
  variant S →
  SESSION_DOMAIN w' !! py_or (middleware_session_id ctx) EmptyString =
    SESSION_DOMAIN w !! py_or (middleware_session_id ctx) EmptyString →
  listing S ctx downstream w' = listing S ctx downstream w ∧
  (srv_on_call_tool S ctx (λ _, mret r) w').1 =
    (srv_on_call_tool S ctx (λ _, mret r) w).1.
Proof.
  intros [-> | ->] Heq; cbn [srv_on_call_tool final_server orchestrator_server].
  - rewrite !listing_final. unfold Final.domain_tools, Final.on_call_tool.
    unfold_monad. simpl. rewrite Heq. split; [done|].
    case_bool_decide; [done|].
    destruct (truthy (middleware_session_id ctx)); simpl; [|done].
    rewrite ?Heq.
    destruct (SESSION_DOMAIN w !! _) as [d|]; [|done].
    destruct (Final.DOMAIN_TOOLS !! d) as [allowed|]; [|done].
    by case_bool_decide.
  - rewrite !listing_orchestrator. unfold Orchestrator.on_call_tool.
    unfold Orchestrator._is_allowed_tool. unfold_monad. simpl.
    rewrite Heq. split; [done|].
    by destruct (negb _).
Qed.

(** C6: two sessions with different selected registry domains. Whatever
    the tool manager answers, the listing of each session contains no
    operation of the other session's domain, and a call by each session of
    an operation of the other's domain is rejected, with the world
    unchanged and the next handler not run. What a session lists and may
    call depends on the store only through that session's own entry. *)
Theorem sessions_isolated S ctx1 ctx2 s1 s2 d1 d2 w :
  variant S → s1 ≠ s2 → d1 ≠ d2 →
  d1 ∈ keys DOMAINS → d2 ∈ keys DOMAINS →
  middleware_session_id ctx1 = Some s1 →
  middleware_session_id ctx2 = Some s2 →
  SESSION_DOMAIN w !! s1 = Some d1 →
  SESSION_DOMAIN w !! s2 = Some d2 →
  (∀ downstream l tool,
     listing S ctx1 downstream w = Returned l →
     operation_of d2 tool = true → tool ∉ name <$> l) ∧
  (∀ downstream l tool,
     listing S ctx2 downstream w = Returned l →
     operation_of d1 tool = true → tool ∉ name <$> l) ∧
  (∀ call_next, operation_of d2 (message_name ctx1) = true →
     ∃ e, srv_on_call_tool S ctx1 call_next w = (Raised e, w)) ∧
  (∀ call_next, operation_of d1 (message_name ctx2) = true →
     ∃ e, srv_on_call_tool S ctx2 call_next w = (Raised e, w)) ∧
  (∀ w' downstream r,
     SESSION_DOMAIN w' !! s1 = SESSION_DOMAIN w !! s1 →
     listing S ctx1 downstream w' = listing S ctx1 downstream w ∧
     (srv_on_call_tool S ctx1 (λ _, mret r) w').1 =
       (srv_on_call_tool S ctx1 (λ _, mret r) w).1).
Proof.
  intros HS _ Hne Hd1 Hd2 Hc1 Hc2 Hs1 Hs2.
  assert (d2 ≠ d1) as Hne' by done.
  split; [|split; [|split; [|split]]].
  - intros downstream l tool Hl Hop. destruct HS as [-> | ->].
    + rewrite listing_final in Hl. injection Hl as <-.
      by apply (final_hides_other ctx1 s1 d1 d2 w).
    + rewrite listing_orchestrator in Hl. injection Hl as <-.
      intros [t [-> Ht]]%list_elem_of_fmap.
      apply list_elem_of_filter in Ht as [Ha _].
      by rewrite (orchestrator_denies_other ctx1 s1 d1 d2 w) in Ha.
  - intros downstream l tool Hl Hop. destruct HS as [-> | ->].
    + rewrite listing_final in Hl. injection Hl as <-.
      by apply (final_hides_other ctx2 s2 d2 d1 w).
    + rewrite listing_orchestrator in Hl. injection Hl as <-.
      intros [t [-> Ht]]%list_elem_of_fmap.
      apply list_elem_of_filter in Ht as [Ha _].
      by rewrite (orchestrator_denies_other ctx2 s2 d2 d1 w) in Ha.
  - intros call_next Hop. destruct HS as [-> | ->]; simpl.
    + by apply (final_rejects_other ctx1 s1 d1 d2 w).
    + eexists. apply orchestrator_call_denied.
      by apply (orchestrator_denies_other ctx1 s1 d1 d2 w).
  - intros call_next Hop. destruct HS as [-> | ->]; simpl.
    + by apply (final_rejects_other ctx2 s2 d2 d1 w).
    + eexists. apply orchestrator_call_denied.
      by apply (orchestrator_denies_other ctx2 s2 d2 d1 w).
  - intros w' downstream r Heq. apply scope_local; [done|].
    rewrite Hc1. by destruct s1.
Qed.

Lemma sessions_isolated_witness :
  (∀ l, listing orchestrator_server
          (calling (session "s1") "products_get_product") full_catalog
          two_sessions = Returned l →
        "products_get_product" ∉ name <$> l) ∧
  (∃ e, srv_on_call_tool orchestrator_server
          (calling (session "s1") "products_get_product")
          (run_tool orchestrator_server (session "s1") (Returned JNull))
          two_sessions = (Raised e, two_sessions)) ∧
  (∃ e, srv_on_call_tool orchestrator_server
          (calling (session "s2") "invoicing_get_invoice")
          (run_tool orchestrator_server (session "s2") (Returned JNull))
          two_sessions = (Raised e, two_sessions)).
Proof.
  destruct (sessions_isolated orchestrator_server
              (calling (session "s1") "products_get_product")
              (calling (session "s2") "invoicing_get_invoice")
              "s1" "s2" "invoicing" "products" two_sessions)
    as (Hl1 & _ & Hc1 & Hc2 & _).
  - by right.
  - discriminate.
  - discriminate.
  - rewrite keys_DOMAINS. auto.
  - rewrite keys_DOMAINS. auto.
  - reflexivity.
  - reflexivity.
  - reflexivity.
  - reflexivity.
  - split; [|split].
    + intros l Hl. by apply (Hl1 full_catalog l).
    + by apply Hc1.
    + by apply Hc2.
Defined.

(** ** Scope of an invocation *)

(** C1, as the code has it: for a caller with a non-empty session id whose
    selected domain is the registry key [d], and a tool that is not a
    built-in. In orchestrator.py the prefix rule decides: a name that does
    not begin with [d] and the separator is rejected with an error naming
    the tool and [d] (and no list of operations), the world unchanged; a
    name that does is handed to the next handler, whose result or error is
    returned as it is. In orchestrator_final.py the static table decides: a
    name that does not begin with [d] and the separator is rejected with an
    error naming the tool, [d] and the sorted entries of [d]'s table; a name
    in the table is handed to the next handler. *)
Theorem invocation_scope A ctx (call_next : MiddlewareContext → M A) w s d :
  middleware_session_id ctx = Some s → s ≠ EmptyString →
  SESSION_DOMAIN w !! s = Some d → d ∈ keys DOMAINS →
  message_name ctx ∉ ORCHESTRATOR_TOOLS →
  (operation_of d (message_name ctx) = false →
     Orchestrator.on_call_tool ctx call_next w =
       (Raised (Orchestrator.not_available (message_name ctx) d), w)) ∧
  (operation_of d (message_name ctx) = true →
     Orchestrator.on_call_tool ctx call_next w = call_next ctx w) ∧
  (∃ allowed,
     Final.DOMAIN_TOOLS !! d = Some allowed ∧
     (operation_of d (message_name ctx) = false →
        Final.on_call_tool ctx call_next w =
          (Raised (Final.not_available (message_name ctx) d allowed), w)) ∧
     (message_name ctx ∈ allowed →
        Final.on_call_tool ctx call_next w = call_next ctx w)).
Proof.
  intros Hctx Hs Hsel Hd Hb.
  assert (py_or (middleware_session_id ctx) EmptyString = s) as Hkey
    by (rewrite Hctx; by destruct s).
  assert (truthy (middleware_session_id ctx) = true) as Htr
    by (rewrite Hctx; by destruct s).
  assert (Orchestrator._is_allowed_tool (message_name ctx)
            (middleware_session_id ctx) (SESSION_DOMAIN w) =
          operation_of d (message_name ctx)) as Hallow.
  { unfold Orchestrator._is_allowed_tool.
    rewrite bool_decide_eq_false_2, Htr, Hkey, Hsel by done. simpl.
    rewrite keys_DOMAINS in Hd. by destruct Hd as [-> | [-> | ->]]. }
  split; [|split].
  - intros Hop. rewrite orchestrator_call_denied by congruence.
    by rewrite Hkey, Hsel.
  - intros Hop. apply orchestrator_call_allowed. congruence.
  - destruct (final_table d Hd) as [allowed Htab]. exists allowed.
    split; [done|]. split.
    + intros Hop. unfold Final.on_call_tool.
      rewrite bool_decide_eq_false_2 by done. unfold_monad. simpl.
      rewrite Htr, Hkey, Hsel, Htab. simpl.
      rewrite bool_decide_eq_true_2; [done|].
      intros Hin. apply (final_table_operation d allowed) in Hin; [|done].
      congruence.
    + intros Hin. unfold Final.on_call_tool.
      rewrite bool_decide_eq_false_2 by done. unfold_monad. simpl.
      rewrite Htr, Hkey, Hsel, Htab. simpl.
      rewrite bool_decide_eq_false_2; [done|]. by intros ?.
Qed.

Lemma invocation_scope_witness :
  Orchestrator.on_call_tool (calling (session "s1") "products_search_products")
    (λ _, list_domains) s1_products
    = (Returned ["invoicing"; "products"; "users"], s1_products) ∧
  Orchestrator.on_call_tool (calling (session "s1") "users_get_user")
    (λ _, list_domains) s1_products
    = (Raised (Orchestrator.not_available "users_get_user" "products"),
       s1_products) ∧
  Final.on_call_tool (calling (session "s1") "products_get_product")
    (λ _, list_domains) s1_products
    = (Returned ["invoicing"; "products"; "users"], s1_products).
Proof.
  assert ("products" ∈ keys DOMAINS) as Hd by (rewrite keys_DOMAINS; auto).
  assert ("s1" ≠ EmptyString) as Hs by discriminate.
  assert (∀ tool, tool ≠ "list_domains" → tool ≠ "get_session_status" →
                  tool ≠ "select_domain" → tool ∉ ORCHESTRATOR_TOOLS) as Hnb.
  { intros tool H1 H2 H3. rewrite builtin_names. by intros [|[|]]. }
  split; [|split].
  - destruct (invocation_scope _
                (calling (session "s1") "products_search_products")
                (λ _, list_domains) s1_products "s1" "products" eq_refl
                Hs eq_refl Hd) as (_ & Hfwd & _).
    + apply Hnb; discriminate.
    + etrans; [apply Hfwd | reflexivity]. reflexivity.
  - destruct (invocation_scope _ (calling (session "s1") "users_get_user")
                (λ _, list_domains) s1_products "s1" "products" eq_refl
                Hs eq_refl Hd) as (Hrej & _).
    + apply Hnb; discriminate.
    + apply Hrej. reflexivity.
  - destruct (invocation_scope _
                (calling (session "s1") "products_get_product")
                (λ _, list_domains) s1_products "s1" "products" eq_refl
                Hs eq_refl Hd) as (_ & _ & allowed & Htab & _ & Hin).
    + apply Hnb; discriminate.
    + etrans; [apply Hin | reflexivity].
      injection Htab as <-.
      apply (bool_decide_unpack _). vm_compute. exact I.
Defined.

(** C1 as stated fails. In orchestrator_final.py, with "products" selected,
    the products operation "products_search_products" begins with the
    prefix and is rejected. In orchestrator.py, with "invoicing" selected,
    the rejection of "products_get_product" does not name the operations in
    scope, and the built-in "list_domains", which does not begin with the
    prefix, is not rejected. *)
Lemma prefix_rule_counterexample :
  operation_of "products" "products_search_products" = true ∧
  Final.on_call_tool (calling (session "s1") "products_search_products")
    (λ _, list_domains) s1_products
    = (Raised (ToolError
         ("Tool 'products_search_products' not available in domain " +:+
          "'products'. Available tools: products_create_product, " +:+
          "products_get_product, products_list_products")), s1_products) ∧
  operation_of "invoicing" "products_get_product" = false ∧
  Orchestrator.on_call_tool (calling (session "s1") "products_get_product")
    (λ _, list_domains) s1_invoicing
    = (Raised (ToolError
         ("Tool 'products_get_product' is not available for this session. " +:+
          "Current domain: invoicing. " +:+
          "Use 'select_domain' to choose a domain first.")), s1_invoicing) ∧
  contains
    ("Tool 'products_get_product' is not available for this session. " +:+
     "Current domain: invoicing. " +:+
     "Use 'select_domain' to choose a domain first.")
    "invoicing_create_invoice" = false ∧
  operation_of "invoicing" "list_domains" = false ∧
  Orchestrator.on_call_tool (calling (session "s1") "list_domains")
    (λ _, list_domains) s1_invoicing
    = (Returned ["invoicing"; "products"; "users"], s1_invoicing).
Proof. vm_compute. done. Qed.

(** ** Catalog listing *)

Lemma orchestrator_allowed_without_selection ctx sessions tool :
  no_selection ctx sessions →
  Orchestrator._is_allowed_tool tool (middleware_session_id ctx) sessions
  ↔ tool ∈ ORCHESTRATOR_TOOLS.
Proof.
  intros Hno. unfold Orchestrator._is_allowed_tool.
  case_bool_decide as Hb; [done|].
  destruct Hno as [-> | Hnone]; simpl; [done|].
  destruct (truthy (middleware_session_id ctx)); simpl; [|done].
  by rewrite Hnone.
Qed.

Lemma orchestrator_allowed_with_selection ctx sessions s d tool :
  middleware_session_id ctx = Some s → s ≠ EmptyString →
  sessions !! s = Some d → d ∈ keys DOMAINS →
  Orchestrator._is_allowed_tool tool (middleware_session_id ctx) sessions
  ↔ tool ∈ ORCHESTRATOR_TOOLS ∨ operation_of d tool.
Proof.
  intros Hctx Hs Hsel Hd. unfold Orchestrator._is_allowed_tool.
  case_bool_decide as Hb; [by split; [left|]|].
  rewrite Hctx. destruct s as [|a s']; [done|]. simpl. rewrite Hsel.
  rewrite keys_DOMAINS in Hd.
  destruct Hd as [-> | [-> | ->]]; simpl; unfold operation_of; tauto.
Qed.

Lemma final_domain_tools_without_selection ctx sessions downstream :
  no_selection ctx sessions →
  Final.domain_tools (middleware_session_id ctx) sessions downstream = [].
Proof.
  intros Hno. unfold Final.domain_tools.
  destruct Hno as [-> | Hnone]; [done|].
  destruct (truthy (middleware_session_id ctx)); [|done]. by rewrite Hnone.
Qed.

Lemma listing_without_selection S ctx downstream w :
  variant S → no_selection ctx (SESSION_DOMAIN w) →
  listing S ctx downstream w =
    Returned (filter (λ t, name t ∈ ORCHESTRATOR_TOOLS) downstream).
Proof.
  intros [-> | ->] Hno.
  - rewrite listing_final, final_domain_tools_without_selection by done.
    by rewrite app_nil_r.
  - rewrite listing_orchestrator. f_equal. apply list_filter_iff.
    intros t. by apply orchestrator_allowed_without_selection.
Qed.




(** ** Callers without a session id *)

(** C3, as the code has it. The built-in tools key the store by the session
    id, else the client id, else "default": with neither id the key is
    "default", so a selection made without ids is read back by
    [get_session_status] without ids. The middleware has no such fallback:
    for a context without a usable session id the listing is the built-ins
    only and every call of another tool is rejected, whatever the store
    holds. *)
Theorem anonymous_callers :
  (∀ c, truthy (session_id c) = false → truthy (client_id c) = false →
     session_key c = "default") ∧
  (∀ c, truthy (session_id c) = false → truthy (client_id c) = true →
     client_id c = Some (session_key c)) ∧
  (∀ S c c' d w,
     variant S → d ∈ keys DOMAINS →
     session_key c = "default" → session_key c' = "default" →
     let w' := (srv_select_domain S d c w).2 in
     SESSION_DOMAIN w' !! "default" = Some d ∧
     srv_get_session_status S c' w' =
       (Returned {| status_session_id := "default";
                    selected_domain := Some d;
                    available_domains := ["invoicing"; "products"; "users"];
                    status := "active" |}, w')) ∧
  (∀ S ctx downstream w,
     variant S → truthy (middleware_session_id ctx) = false →
     listing S ctx downstream w =
       Returned (filter (λ t, name t ∈ ORCHESTRATOR_TOOLS) downstream)) ∧
  (∀ S ctx call_next w,
     variant S → truthy (middleware_session_id ctx) = false →
     message_name ctx ∉ ORCHESTRATOR_TOOLS →
     ∃ e, srv_on_call_tool S ctx call_next w = (Raised e, w)).
Proof.
  split; [|split; [|split; [|split]]].
  - intros [[[|a s]|] [[|b t]|]]; simpl; try done.
  - intros [[[|a s]|] [[|b t]|]]; simpl; try done.
  - intros S c c' d w HS Hd Hc Hc' w'.
    assert (SESSION_DOMAIN w' !! "default" = Some d) as Hsel.
    { subst w'. rewrite variant_select_store by done.
      apply in_DOMAINS_true in Hd. rewrite Hd, Hc. apply lookup_insert_eq. }
    split; [done|].
    rewrite <- sorted_domains, <- Hc'. apply status_of_selection; [done..|].
    by rewrite Hc'.
  - intros S ctx downstream w HS Hno.
    apply listing_without_selection; [done | by left].
  - intros S ctx call_next w [-> | ->] Hno Hb; simpl; eexists.
    + apply final_call_without_selection; [done | by left].
    + apply orchestrator_call_denied.
      apply orchestrator_denied_without_selection; [done | by left].
Qed.

Lemma anonymous_callers_witness :
  session_key anonymous = "default" ∧
  (Final.get_session_status anonymous
     (Final.select_domain "invoicing" anonymous initial_world).2).1 =
    Returned {| status_session_id := "default";
                selected_domain := Some "invoicing";
                available_domains := ["invoicing"; "products"; "users"];
                status := "active" |} ∧
  listing final_server (calling anonymous EmptyString) full_catalog
    (Final.select_domain "invoicing" anonymous initial_world).2 =
    Returned (tools_named
      [ "list_domains"; "get_session_status"; "select_domain" ]).
Proof.
  destruct anonymous_callers as (Hkey & _ & Hstatus & Hlist & _).
  split; [|split].
  - by apply Hkey.
  - destruct (Hstatus final_server anonymous anonymous "invoicing"
                initial_world) as [_ H].
    + by left.
    + rewrite keys_DOMAINS. auto.
    + reflexivity.
    + reflexivity.
    + exact (f_equal fst H).
  - etrans; [apply Hlist|].
    + by left.
    + reflexivity.
    + vm_compute. reflexivity.
Defined.

(** C3 as stated fails. After a [select_domain] of "invoicing" made without
    any id, which succeeds and is stored under "default", a listing made
    without any id has the built-ins only, and a call of an invoicing
    operation without any id is rejected with nothing forwarded, in both
    variants. *)
Lemma anonymous_listing_counterexample :
  let wF := (handle final_server (select anonymous "invoicing")
               initial_world).2 in
  let wO := (handle orchestrator_server (select anonymous "invoicing")
               initial_world).2 in
  SESSION_DOMAIN wF !! "default" = Some "invoicing" ∧
  SESSION_DOMAIN wO !! "default" = Some "invoicing" ∧
  (handle final_server (ListTools anonymous full_catalog) wF).1 =
    Returned (Tools (tools_named
      [ "list_domains"; "get_session_status"; "select_domain" ])) ∧
  (handle orchestrator_server (ListTools anonymous full_catalog) wO).1 =
    Returned (Tools (tools_named
      [ "list_domains"; "get_session_status"; "select_domain" ])) ∧
  handle final_server
    (CallTool anonymous "invoicing_create_invoice" ∅ (Returned JNull)) wF =
    (Raised Final.no_domain_selected, wF) ∧
  handle orchestrator_server
    (CallTool anonymous "invoicing_create_invoice" ∅ (Returned JNull)) wO =
    (Raised (Orchestrator.not_available "invoicing_create_invoice" "none"),
     wO).
Proof. vm_compute. done. Qed.

(** * Further properties of the gateway *)

Lemma reachable_run S reqs w : reachable S w → reachable S (run S reqs w).
Proof.
  revert w. induction reqs as [|r reqs IH]; intros w Hw; [done|].
  unfold run. simpl. apply IH. by apply reachable_step.
Qed.

(** ** What is forwarded to a backend *)

Lemma orchestrator_allowed_inv tool sid sessions :
  Orchestrator._is_allowed_tool tool sid sessions = true →
  tool ∉ ORCHESTRATOR_TOOLS →
  ∃ s d, sid = Some s ∧ s ≠ EmptyString ∧ sessions !! s = Some d ∧
         operation_of d tool = true.
Proof.
  unfold Orchestrator._is_allowed_tool. intros Ha Hb.
  rewrite bool_decide_eq_false_2 in Ha by done.
  destruct sid as [[|a s]|]; try done. simpl in Ha.
  destruct (sessions !! String a s) as [[|b d]|] eqn:Hsel; try done.
  exists (String a s), (String b d). done.
Qed.

Lemma run_tool_events S c backend tool arguments w e :
  variant S →
  e ∈ emitted (run_tool S c backend
                 (mkMiddlewareContext (Some c) tool arguments) w).2 →
  e ∈ emitted w ∨
  (S = orchestrator_server ∧ e ∈ notifications) ∨
  (e = Forwarded tool arguments ∧ tool ∉ ORCHESTRATOR_TOOLS).
Proof.
  intros HS. unfold run_tool. simpl.
  case_bool_decide as H1; [by left|].
  case_bool_decide as H2.
  { unfold_monad. pose proof (variant_status_pure S c w HS) as Hp.
    destruct (srv_get_session_status S c w) as [[?|?] w']; simpl in *;
      subst; by left. }
  case_bool_decide as H3.
  - destruct (arguments !! "domain") as [[| |domain|]|]; try by left.
    unfold_monad. destruct (decide (domain ∈ keys DOMAINS)) as [Hd|Hd];
      destruct HS as [-> | ->]; simpl.
    + rewrite final_select_known by done. by left.
    + rewrite orchestrator_select_known by done. simpl.
      rewrite elem_of_app. intros [?|?]; [by left | by right; left].
    + rewrite final_select_unknown by done. by left.
    + rewrite orchestrator_select_unknown by done. by left.
  - unfold_monad. simpl.
    assert (tool ∉ ORCHESTRATOR_TOOLS) as Hb
      by (rewrite builtin_names; by intros [|[|]]).
    destruct backend; simpl; rewrite elem_of_app, list_elem_of_singleton;
      intros [?|?]; auto.
Qed.

Lemma final_call_forward_inv {A} ctx (call_next : MiddlewareContext → M A) w :
  message_name ctx ∉ ORCHESTRATOR_TOOLS →
  (∃ e, Final.on_call_tool ctx call_next w = (Raised e, w)) ∨
  (∃ s d, middleware_session_id ctx = Some s ∧ s ≠ EmptyString ∧
          SESSION_DOMAIN w !! s = Some d ∧
          (Final.DOMAIN_TOOLS !! d = None ∨
           ∃ allowed, Final.DOMAIN_TOOLS !! d = Some allowed ∧
                      message_name ctx ∈ allowed)).
Proof.
  intros Hb. unfold Final.on_call_tool.
  rewrite bool_decide_eq_false_2 by done. unfold_monad. simpl.
  destruct (middleware_session_id ctx) as [[|a s]|]; simpl;
    try (by left; eexists).
  destruct (SESSION_DOMAIN w !! String a s) as [d|] eqn:Hsel;
    [|by left; eexists].
  destruct (Final.DOMAIN_TOOLS !! d) as [allowed|] eqn:Htab.
  - case_bool_decide as Hin; [by left; eexists|].
    right. exists (String a s), d. repeat split; try done.
    right. by exists allowed.
  - right. exists (String a s), d. repeat split; try done. by left.
Qed.

Lemma servers_differ : final_server ≠ orchestrator_server.
Proof.
  intros Heq.
  apply (f_equal (λ S, (srv_select_domain S "billing" anonymous
                          initial_world).1)) in Heq.
  vm_compute in Heq. discriminate Heq.
Qed.

Lemma table_registry d allowed :
  Final.DOMAIN_TOOLS !! d = Some allowed → d ∈ keys DOMAINS.
Proof.
  unfold Final.DOMAIN_TOOLS. intros Hd. rewrite keys_DOMAINS.
  repeat (apply lookup_insert_Some in Hd as [[<- _] | [_ Hd]]; [tauto|]).
  by rewrite lookup_empty in Hd.
Qed.

(** X1: in orchestrator.py's gateway, a call reaches a backend only when it
    is in the caller's scope: a single request forwards at most the tool it
    names, for a caller whose non-empty session id is stored with a domain
    that prefixes it; so in every reachable world each forwarded tool name
    is not a built-in and begins with a registry domain and the
    separator. *)
Theorem orchestrator_forwards_in_scope :
  (∀ r w tool arguments,
     Forwarded tool arguments ∈ emitted (handle orchestrator_server r w).2 →
     Forwarded tool arguments ∈ emitted w ∨
     ((tool ∉ ORCHESTRATOR_TOOLS) ∧
      ∃ c backend s d,
        r = CallTool c tool arguments backend ∧
        session_id c = Some s ∧ s ≠ EmptyString ∧
        SESSION_DOMAIN w !! s = Some d ∧ operation_of d tool = true)) ∧
  (∀ w tool arguments,
     reachable orchestrator_server w →
     Forwarded tool arguments ∈ emitted w →
     (tool ∉ ORCHESTRATOR_TOOLS) ∧
     ∃ d, d ∈ keys DOMAINS ∧ operation_of d tool = true).
Proof.
  assert (∀ r w tool arguments,
     Forwarded tool arguments ∈ emitted (handle orchestrator_server r w).2 →
     Forwarded tool arguments ∈ emitted w ∨
     ((tool ∉ ORCHESTRATOR_TOOLS) ∧
      ∃ c backend s d,
        r = CallTool c tool arguments backend ∧
        session_id c = Some s ∧ s ≠ EmptyString ∧
        SESSION_DOMAIN w !! s = Some d ∧ operation_of d tool = true)) as Hstep.
  { intros r w tool arguments.
    destruct r as [c downstream | c tool' arguments' backend]; [by left|].
    unfold handle. set (ctx := mkMiddlewareContext (Some c) tool' arguments').
    unfold_monad. simpl.
    destruct (Orchestrator._is_allowed_tool tool' (session_id c)
                (SESSION_DOMAIN w)) eqn:Ha.
    - rewrite orchestrator_call_allowed by done. intros He.
      assert (Forwarded tool arguments ∈
                emitted (run_tool orchestrator_server c backend ctx w).2)
        as He' by (by destruct (run_tool _ c backend ctx w) as [[?|?] w']).
      apply run_tool_events in He' as [?|[[_ Hn]|[[= <- <-] Hb]]];
        [by left | | | by right].
      { unfold notifications in Hn. rewrite !elem_of_cons, elem_of_nil in Hn.
        by destruct Hn as [|[|[|]]]. }
      right. split; [done|].
      apply orchestrator_allowed_inv in Ha as (s & d & ? & ? & ? & ?); [|done].
      by exists c, backend, s, d.
    - rewrite orchestrator_call_denied by done. by left. }
  split; [done|].
  intros w tool arguments Hw. induction Hw as [|w r Hw IH].
  - simpl. by intros ?%elem_of_nil.
  - intros He.
    destruct (Hstep r w tool arguments He)
      as [?|[Hb (c & backend & s & d & _ & _ & _ & Hsel & Hop)]]; [auto|].
    split; [done|]. exists d. split; [|done].
    by apply (reachable_registry orchestrator_server w (or_intror eq_refl)
                Hw s d).
Qed.

Lemma orchestrator_forwards_in_scope_witness :
  ("products_get_product" ∉ ORCHESTRATOR_TOOLS) ∧
  ∃ d, d ∈ keys DOMAINS ∧ operation_of d "products_get_product" = true.
Proof.
  destruct orchestrator_forwards_in_scope as [_ Hinv].
  apply (Hinv (run orchestrator_server
                 [select (session "s1") "products";
                  CallTool (session "s1") "products_get_product" ∅
                           (Returned JNull)] initial_world)
              "products_get_product" ∅).
  - apply reachable_run, reachable_initial.
  - vm_compute. repeat constructor.
Defined.

(** X2: in orchestrator_final.py's gateway, the only tools ever forwarded
    are entries of the static table of a registry domain: a single request
    forwards at most the tool it names, for a caller whose non-empty
    session id is stored with a domain; and in every reachable world each
    forwarded tool is in the table of some registry domain (the branch that
    lets a call through when the stored domain has no table is never
    taken). *)
Theorem final_forwards_table_entries :
  (∀ r w tool arguments,
     Forwarded tool arguments ∈ emitted (handle final_server r w).2 →
     Forwarded tool arguments ∈ emitted w ∨
     ((tool ∉ ORCHESTRATOR_TOOLS) ∧
      ∃ c backend s d,
        r = CallTool c tool arguments backend ∧
        session_id c = Some s ∧ s ≠ EmptyString ∧
        SESSION_DOMAIN w !! s = Some d ∧
        (Final.DOMAIN_TOOLS !! d = None ∨
         ∃ allowed, Final.DOMAIN_TOOLS !! d = Some allowed ∧ tool ∈ allowed))) ∧
  (∀ w tool arguments,
     reachable final_server w →
     Forwarded tool arguments ∈ emitted w →
     ∃ d allowed, d ∈ keys DOMAINS ∧
                  Final.DOMAIN_TOOLS !! d = Some allowed ∧ tool ∈ allowed).
Proof.
  assert (∀ r w tool arguments,
     Forwarded tool arguments ∈ emitted (handle final_server r w).2 →
     Forwarded tool arguments ∈ emitted w ∨
     ((tool ∉ ORCHESTRATOR_TOOLS) ∧
      ∃ c backend s d,
        r = CallTool c tool arguments backend ∧
        session_id c = Some s ∧ s ≠ EmptyString ∧
        SESSION_DOMAIN w !! s = Some d ∧
        (Final.DOMAIN_TOOLS !! d = None ∨
         ∃ allowed, Final.DOMAIN_TOOLS !! d = Some allowed ∧ tool ∈ allowed)))
    as Hstep.
  { intros r w tool arguments.
    destruct r as [c downstream | c tool' arguments' backend]; [by left|].
    unfold handle. set (ctx := mkMiddlewareContext (Some c) tool' arguments').
    unfold_monad. simpl. intros He.
    destruct (final_call_cases _ ctx (run_tool final_server c backend) w)
      as [Hc | [x Hc]]; rewrite Hc in He; [|by left].
    assert (Forwarded tool arguments ∈
              emitted (run_tool final_server c backend ctx w).2)
      as He' by (by destruct (run_tool _ c backend ctx w) as [[?|?] w']).
    apply run_tool_events in He' as [?|[[Heq _]|[[= <- <-] Hb]]];
      [by left | by destruct servers_differ | | by left].
    right. split; [done|].
    destruct (final_call_forward_inv ctx (run_tool final_server c backend) w Hb)
      as [[x Hx] | (s & d & Hs & Hne & Hsel & Htab)].
    - exfalso. rewrite Hx in Hc. unfold run_tool in Hc. simpl in Hc.
      rewrite builtin_names in Hb.
      rewrite !bool_decide_eq_false_2 in Hc by tauto.
      unfold_monad. simpl in Hc.
      destruct backend as [j|e0]; [discriminate Hc|].
      injection Hc as _ Hlen.
      apply (f_equal emitted), (f_equal length) in Hlen. simpl in Hlen.
      rewrite length_app in Hlen. simpl in Hlen. lia.
    - by exists c, backend, s, d. }
  split; [done|].
  intros w tool arguments Hw. induction Hw as [|w r Hw IH].
  - simpl. by intros ?%elem_of_nil.
  - intros He.
    destruct (Hstep r w tool arguments He)
      as [?|[Hb (c & backend & s & d & _ & _ & _ & Hsel & Htab)]]; [auto|].
    pose proof (reachable_registry final_server w (or_introl eq_refl) Hw s d
                  Hsel) as Hd.
    destruct (final_table d Hd) as [allowed Ha].
    destruct Htab as [Hnone | (allowed' & Ha' & Hin)]; [congruence|].
    exists d, allowed'. done.
Qed.

Lemma final_forwards_table_entries_witness :
  ∃ d allowed, d ∈ keys DOMAINS ∧
               Final.DOMAIN_TOOLS !! d = Some allowed ∧
               "products_get_product" ∈ allowed.
Proof.
  destruct final_forwards_table_entries as [_ Hinv].
  apply (Hinv (run final_server
                 [select (session "s1") "products";
                  CallTool (session "s1") "products_get_product" ∅
                           (Returned JNull)] initial_world)
              "products_get_product" ∅).
  - apply reachable_run, reachable_initial.
  - vm_compute. repeat constructor.
Defined.

(** ** The two middlewares compared *)

Lemma final_domain_tools_elem sid sessions downstream t :
  t ∈ Final.domain_tools sid sessions downstream ↔
  t ∈ downstream ∧
  ∃ s d allowed, sid = Some s ∧ s ≠ EmptyString ∧ sessions !! s = Some d ∧
                 Final.DOMAIN_TOOLS !! d = Some allowed ∧ name t ∈ allowed.
Proof.
  unfold Final.domain_tools.
  destruct sid as [[|a s]|]; simpl.
  - rewrite elem_of_nil. split; [done|]. by intros (_ & ? & ? & ? & [= <-] & ? & _).
  - destruct (sessions !! String a s) as [d|] eqn:Hsel.
    + destruct (Final.DOMAIN_TOOLS !! d) as [allowed|] eqn:Htab.
      * rewrite list_elem_of_filter. split.
        -- intros [Hin Ht]. split; [done|].
           by exists (String a s), d, allowed.
        -- intros (Ht & s' & d' & allowed' & [= <-] & _ & Hsel' & Htab' & Hin).
           rewrite Hsel in Hsel'. injection Hsel' as <-.
           rewrite Htab in Htab'. by injection Htab' as <-.
      * rewrite elem_of_nil. split; [done|].
        intros (_ & s' & d' & allowed' & [= <-] & _ & Hsel' & Htab' & _).
        congruence.
    + rewrite elem_of_nil. split; [done|].
      intros (_ & s' & d' & allowed' & [= <-] & _ & Hsel' & _). congruence.
  - rewrite elem_of_nil. split; [done|]. by intros (_ & ? & ? & ? & [=] & _).
Qed.

Lemma final_call_probe ctx (r : ToolResult) w :
  (Final.on_call_tool ctx (λ _, mret r) w).1 = Returned r ↔
  message_name ctx ∈ ORCHESTRATOR_TOOLS ∨
  ∃ s d, middleware_session_id ctx = Some s ∧ s ≠ EmptyString ∧
         SESSION_DOMAIN w !! s = Some d ∧
         (Final.DOMAIN_TOOLS !! d = None ∨
          ∃ allowed, Final.DOMAIN_TOOLS !! d = Some allowed ∧
                     message_name ctx ∈ allowed).
Proof.
  unfold Final.on_call_tool. case_bool_decide as Hb; [by split; [left|]|].
  unfold_monad. simpl.
  destruct (middleware_session_id ctx) as [[|a s]|]; simpl.
  - split; [done|]. by intros [|(? & ? & [= <-] & ? & _)].
  - destruct (SESSION_DOMAIN w !! String a s) as [d|] eqn:Hsel; simpl.
    + destruct (Final.DOMAIN_TOOLS !! d) as [allowed|] eqn:Htab.
      * case_bool_decide as Hin; simpl.
        -- split; [done|].
           intros [|(s' & d' & [= <-] & _ & Hsel' & Htab')]; [done|].
           rewrite Hsel in Hsel'. injection Hsel' as <-.
           destruct Htab' as [|(allowed' & Htab' & Hin')]; [congruence|].
           rewrite Htab in Htab'. by injection Htab' as <-.
        -- split; [|done]. intros _. right.
           exists (String a s), d. repeat split; try done.
           right. by exists allowed.
      * split; [|done]. intros _. right.
        exists (String a s), d. repeat split; try done. by left.
    + split; [done|].
      intros [|(s' & d' & [= <-] & _ & Hsel' & _)]; [done | congruence].
  - split; [done|]. by intros [|(? & ? & [=] & _)].
Qed.

Lemma orchestrator_call_probe ctx (r : ToolResult) w :
  (Orchestrator.on_call_tool ctx (λ _, mret r) w).1 = Returned r ↔
  Orchestrator._is_allowed_tool (message_name ctx) (middleware_session_id ctx)
    (SESSION_DOMAIN w) = true.
Proof.
  destruct (Orchestrator._is_allowed_tool _ _ _) eqn:Ha.
  - by rewrite orchestrator_call_allowed.
  - by rewrite orchestrator_call_denied.
Qed.

(** X3: an edge of orchestrator_final.py's middleware. When the caller's
    stored domain has no entry in the static table, [on_call_tool] lets
    every call through to the next handler, while [on_list_tools] lists the
    built-ins only: such a caller may call what it is never shown. (No
    reachable world has such a store.) *)
Theorem final_unlisted_domain_fails_open
    A ctx (call_next : MiddlewareContext → M A) w s d downstream :
  middleware_session_id ctx = Some s → s ≠ EmptyString →
  SESSION_DOMAIN w !! s = Some d → Final.DOMAIN_TOOLS !! d = None →
  Final.on_call_tool ctx call_next w = call_next ctx w ∧
  listing final_server ctx downstream w =
    Returned (filter (λ t, name t ∈ ORCHESTRATOR_TOOLS) downstream).
Proof.
  intros Hctx Hs Hsel Htab. split.
  - unfold Final.on_call_tool. case_bool_decide; [done|].
    unfold_monad. simpl. rewrite Hctx.
    destruct s as [|a s']; [done|]. simpl. by rewrite Hsel, Htab.
  - rewrite listing_final. unfold Final.domain_tools. rewrite Hctx.
    destruct s as [|a s']; [done|]. simpl.
    by rewrite Hsel, Htab, app_nil_r.
Qed.

Lemma final_unlisted_domain_fails_open_witness :
  Final.on_call_tool (calling (session "s1") "users_get_user")
    (λ _, list_domains) s1_unregistered
    = (Returned ["invoicing"; "products"; "users"], s1_unregistered) ∧
  listing final_server (calling (session "s1") "users_get_user")
    full_catalog s1_unregistered
    = Returned (tools_named
        [ "list_domains"; "get_session_status"; "select_domain" ]).
Proof.
  destruct (final_unlisted_domain_fails_open _
              (calling (session "s1") "users_get_user")
              (λ _, list_domains) s1_unregistered "s1" "billing"
              full_catalog) as [Hcall Hlist].
  - reflexivity.
  - discriminate.
  - reflexivity.
  - reflexivity.
  - split.
    + etrans; [apply Hcall | reflexivity].
    + etrans; [apply Hlist | vm_compute; reflexivity].
Defined.

(** X4: orchestrator_final.py's middleware is at most as permissive as
    orchestrator.py's. For a store that holds registry keys only, whatever
    the first lists the second lists, and whatever call the first lets
    through the second lets through. *)
Theorem final_within_orchestrator ctx downstream w (r : ToolResult) :
  registry_valued (SESSION_DOMAIN w) →
  (∀ lF lO t,
     listing final_server ctx downstream w = Returned lF →
     listing orchestrator_server ctx downstream w = Returned lO →
     t ∈ lF → t ∈ lO) ∧
  ((Final.on_call_tool ctx (λ _, mret r) w).1 = Returned r →
   (Orchestrator.on_call_tool ctx (λ _, mret r) w).1 = Returned r).
Proof.
  intros Hreg. split.
  - intros lF lO t. rewrite listing_final, listing_orchestrator.
    intros [= <-] [= <-]. rewrite elem_of_app, !list_elem_of_filter.
    intros [[Hb Ht] | Hdt].
    + split; [|done]. unfold Orchestrator._is_allowed_tool.
      by rewrite bool_decide_eq_true_2.
    + apply final_domain_tools_elem
        in Hdt as (Ht & s & d & allowed & Hs & Hne & Hsel & Htab & Hin).
      split; [|done].
      apply (orchestrator_allowed_with_selection ctx _ s d); try done.
      { by apply (Hreg s). }
      right. by rewrite (final_table_operation d allowed).
  - rewrite final_call_probe, orchestrator_call_probe.
    intros [Hb | (s & d & Hs & Hne & Hsel & Htab)].
    + unfold Orchestrator._is_allowed_tool.
      by rewrite bool_decide_eq_true_2.
    + pose proof (Hreg s d Hsel) as Hd.
      destruct (final_table d Hd) as [allowed Ha].
      destruct Htab as [|(allowed' & Ha' & Hin)]; [congruence|].
      apply Is_true_true.
      apply (orchestrator_allowed_with_selection ctx _ s d); try done.
      right. by rewrite (final_table_operation d allowed').
Qed.

Lemma final_within_orchestrator_witness :
  (Orchestrator.on_call_tool (calling (session "s1") "products_get_product")
     (λ _, mret (BackendResult JNull)) s1_products).1
    = Returned (BackendResult JNull).
Proof.
  apply (final_within_orchestrator
           (calling (session "s1") "products_get_product") full_catalog
           s1_products (BackendResult JNull)).
  - intros s d. unfold s1_products. simpl.
    intros [<- <-]%lookup_singleton_Some. rewrite keys_DOMAINS. auto.
  - reflexivity.
Defined.

Lemma filter_app_disjoint {A} (P Q : A → Prop)
    `{!∀ x, Decision (P x), !∀ x, Decision (Q x)} (l : list A) :
  (∀ x, P x → Q x → False) →
  filter P l ++ filter Q l ≡ₚ filter (λ x, P x ∨ Q x) l.
Proof.
  intros Hdis. induction l as [|x l IH]; [done|].
  destruct (decide (P x)) as [HP|HP], (decide (Q x)) as [HQ|HQ].
  - by destruct (Hdis x).
  - rewrite (filter_cons_True P), (filter_cons_False Q),
      (filter_cons_True (λ x, P x ∨ Q x)) by tauto.
    simpl. by rewrite IH.
  - rewrite (filter_cons_False P), (filter_cons_True Q),
      (filter_cons_True (λ x, P x ∨ Q x)) by tauto.
    rewrite <- Permutation_middle. by rewrite IH.
  - rewrite (filter_cons_False P), (filter_cons_False Q),
      (filter_cons_False (λ x, P x ∨ Q x)) by tauto.
    done.
Qed.

(** X6: orchestrator_final.py builds its listing from two passes over the
    tool manager's answer, and no tool is taken by both: the listing is a
    rearrangement of a single filter of the answer, so it is never longer
    than the answer, repeats no tool the answer does not repeat, and every
    listed tool is either a built-in or carries the prefix of a registry
    domain. *)
Theorem final_listing_takes_each_tool_once ctx downstream w :
  ∃ l keep,
    listing final_server ctx downstream w = Returned l ∧
    l ≡ₚ filter (λ t, keep (name t) = true) downstream ∧
    length l ≤ length downstream ∧
    (NoDup downstream → NoDup l) ∧
    (∀ t, t ∈ l →
       name t ∈ ORCHESTRATOR_TOOLS ∨
       ∃ d, d ∈ keys DOMAINS ∧ operation_of d (name t) = true).
Proof.
  rewrite listing_final.
  set (dt := Final.domain_tools _ _ _).
  assert (∃ allowed : gset string,
            dt = filter (λ t, name t ∈ allowed) downstream ∧
            ∀ n, n ∈ allowed →
                 ∃ d, d ∈ keys DOMAINS ∧ operation_of d n = true)
    as (allowed & -> & Hop).
  { subst dt. unfold Final.domain_tools.
    assert (∃ allowed : gset string,
              [] = filter (λ t : Tool, name t ∈ allowed) downstream ∧
              ∀ n, n ∈ allowed →
                   ∃ d, d ∈ keys DOMAINS ∧ operation_of d n = true) as Hnil.
    { exists ∅. split; [|set_solver].
      induction downstream as [|t l IH]; [done|].
      rewrite filter_cons_False by set_solver. done. }
    destruct (truthy _); [|done].
    destruct (SESSION_DOMAIN w !! _) as [d|]; [|done].
    destruct (Final.DOMAIN_TOOLS !! d) as [allowed|] eqn:Htab; [|done].
    exists allowed. split; [done|]. intros n Hn. exists d. split.
    - by apply (table_registry d allowed).
    - by apply (final_table_operation d allowed). }
  eexists. exists (λ n, bool_decide (n ∈ ORCHESTRATOR_TOOLS ∨ n ∈ allowed)).
  assert (filter (λ t, name t ∈ ORCHESTRATOR_TOOLS) downstream ++
          filter (λ t, name t ∈ allowed) downstream ≡ₚ
          filter (λ t, bool_decide (name t ∈ ORCHESTRATOR_TOOLS ∨
                                    name t ∈ allowed) = true) downstream)
    as Hperm.
  { rewrite filter_app_disjoint.
    - apply reflexive_eq, list_filter_iff. intros t.
      by rewrite bool_decide_eq_true.
    - intros t Hb Hin. destruct (Hop _ Hin) as (d & Hd & Hopd).
      by rewrite (builtin_not_operation d (name t)) in Hopd. }
  split; [reflexivity|]. split; [done|]. split; [|split].
  - rewrite Hperm. apply length_filter.
  - intros Hnd. rewrite Hperm. by apply NoDup_filter.
  - intros t. rewrite elem_of_app, !list_elem_of_filter.
    intros [[? _] | [Hin _]]; [by left | right; by apply Hop].
Qed.

Lemma full_catalog_NoDup : NoDup full_catalog.
Proof.
  unfold full_catalog, tools_named.
  apply NoDup_fmap_2_strong.
  - by intros x y _ _ [= ->].
  - apply (bool_decide_unpack _). vm_compute. exact I.
Qed.

Lemma final_listing_takes_each_tool_once_witness :
  ∃ l, listing final_server (calling (session "s1") EmptyString)
         full_catalog s1_products = Returned l ∧ NoDup l.
Proof.
  destruct (final_listing_takes_each_tool_once
              (calling (session "s1") EmptyString) full_catalog s1_products)
    as (l & keep & Hl & _ & _ & Hnd & _).
  exists l. split; [exact Hl|]. apply Hnd, full_catalog_NoDup.
Defined.

(** ** Invariants of the reachable worlds *)

Lemma store_after_dom r sessions s :
  is_Some (sessions !! s) → is_Some (store_after r sessions !! s).
Proof.
  unfold store_after. destruct (selected_by r) as [[k d]|]; [|done].
  intros Hs. destruct (decide (k = s)) as [->|Hne].
  - rewrite lookup_insert_eq. by eexists.
  - by rewrite lookup_insert_ne.
Qed.

Lemma store_after_key r sessions :
  sessions !! EmptyString = None → store_after r sessions !! EmptyString = None.
Proof.
  unfold store_after, selected_by.
  destruct r as [|c tool arguments backend]; [done|].
  case_bool_decide; [|done].
  destruct (arguments !! "domain") as [[| |domain|]|]; try done.
  destruct (in_DOMAINS domain); [|done].
  intros Hnone. rewrite lookup_insert_ne; [done|]. apply session_key_nonempty.
Qed.

(** X7: there is no way to deselect. Once a session has an entry in the
    store it has one after any further sequence of requests, in both
    variants: the store's key set only grows, and an entry changes only by
    a [select_domain] made under the same session key. *)
Theorem selection_is_never_removed S reqs w s d :
  variant S → SESSION_DOMAIN w !! s = Some d →
  (∃ d', SESSION_DOMAIN (run S reqs w) !! s = Some d') ∧
  dom (SESSION_DOMAIN w) ⊆ dom (SESSION_DOMAIN (run S reqs w)) ∧
  (Forall (λ r, selects_for s r = false) reqs →
   SESSION_DOMAIN (run S reqs w) !! s = Some d).
Proof.
  intros HS Hsel.
  assert (∀ k, is_Some (SESSION_DOMAIN w !! k) →
               is_Some (SESSION_DOMAIN (run S reqs w) !! k)) as Hmono.
  { intros k. clear Hsel. revert w.
    induction reqs as [|r reqs IH]; intros w Hk; [done|].
    unfold run in *. simpl. apply IH. rewrite handle_store by done.
    by apply store_after_dom. }
  split; [|split].
  - apply Hmono. by eexists.
  - intros k. rewrite !elem_of_dom. apply Hmono.
  - intros Hreqs. by rewrite run_store_other.
Qed.

Lemma selection_is_never_removed_witness :
  ∃ d', SESSION_DOMAIN
          (run final_server
             [select (session "s1") "nonexistent";
              select (session "s2") "users";
              ListTools (session "s1") full_catalog] s1_invoicing)
          !! "s1" = Some d'.
Proof.
  apply (selection_is_never_removed final_server _ s1_invoicing "s1"
           "invoicing").
  - by left.
  - reflexivity.
Defined.

(** X8: no session is ever stored under the empty key, and every stored
    domain is a non-empty registry key; so in every reachable world
    [get_session_status] reports "active" exactly when it reports a
    selected domain (the two could differ only for a stored empty string),
    and orchestrator.py's rejection of a caller without a session id always
    names the current domain "none". *)
Theorem reachable_store_shape S w :
  variant S → reachable S w →
  SESSION_DOMAIN w !! EmptyString = None ∧
  (∀ s d, SESSION_DOMAIN w !! s = Some d →
          s ≠ EmptyString ∧ d ≠ EmptyString ∧ d ∈ keys DOMAINS) ∧
  (∀ c st, (srv_get_session_status S c w).1 = Returned st →
           (status st = "active" ↔ is_Some (selected_domain st)) ∧
           (status st = "no_domain_selected" ↔ selected_domain st = None)) ∧
  (∀ A ctx (call_next : MiddlewareContext → M A),
     truthy (middleware_session_id ctx) = false →
     message_name ctx ∉ ORCHESTRATOR_TOOLS →
     Orchestrator.on_call_tool ctx call_next w =
       (Raised (Orchestrator.not_available (message_name ctx) "none"), w)).
Proof.
  intros HS Hw.
  assert (SESSION_DOMAIN w !! EmptyString = None) as Hkey.
  { induction Hw as [|w r Hw IH]; [done|].
    rewrite handle_store by done. by apply store_after_key. }
  pose proof (reachable_registry S w HS Hw) as Hreg.
  assert (∀ d, d ∈ keys DOMAINS → d ≠ EmptyString) as Hne.
  { intros d. rewrite keys_DOMAINS. by intros [-> | [-> | ->]]. }
  split; [done|]. split; [|split].
  - intros s d Hsel. split; [congruence|]. split; [|by apply (Hreg s)].
    by apply Hne, (Hreg s).
  - intros c st Hst.
    assert (st = {| status_session_id := session_key c;
                    selected_domain := SESSION_DOMAIN w !! session_key c;
                    available_domains := available_domains st;
                    status := if truthy (SESSION_DOMAIN w !! session_key c)
                              then "active" else "no_domain_selected" |})
      as ->.
    { destruct HS as [-> | ->]; simpl in Hst; by injection Hst as <-. }
    simpl. destruct (SESSION_DOMAIN w !! session_key c) as [d|] eqn:Hsel.
    + rewrite (registry_key_truthy d) by (by apply (Hreg (session_key c))).
      split; split; try done; try (by eexists).
    + simpl. split; split; try done; try (by intros [? ?]).
  - intros A ctx call_next Hno Hb.
    rewrite orchestrator_call_denied.
    + destruct (middleware_session_id ctx) as [[|a s]|]; simpl in *;
        try done; by rewrite Hkey.
    + apply orchestrator_denied_without_selection; [done | by left].
Qed.

Lemma reachable_store_shape_witness :
  Orchestrator.on_call_tool (calling anonymous "users_get_user")
    (λ _, list_domains)
    (run orchestrator_server [select anonymous "users"] initial_world) =
  (Raised (Orchestrator.not_available "users_get_user" "none"),
   run orchestrator_server [select anonymous "users"] initial_world).
Proof.
  destruct (reachable_store_shape orchestrator_server
              (run orchestrator_server [select anonymous "users"]
                 initial_world)) as (_ & _ & _ & Hmsg).
  - by right.
  - apply reachable_run, reachable_initial.
  - apply (Hmsg _ (calling anonymous "users_get_user") (λ _, list_domains)).
    + reflexivity.
    + rewrite builtin_names. intros [|[|]]; discriminate.
Defined.

Lemma final_handle_events r w e :
  e ∈ emitted (handle final_server r w).2 →
  e ∈ emitted w ∨ is_forward e = true.
Proof.
  destruct r as [c downstream | c tool arguments backend]; [by left|].
  unfold handle. set (ctx := mkMiddlewareContext (Some c) tool arguments).
  unfold_monad. simpl. intros He.
  destruct (final_call_cases _ ctx (run_tool final_server c backend) w)
    as [Hc | [x Hc]]; rewrite Hc in He; [|by left].
  assert (e ∈ emitted (run_tool final_server c backend ctx w).2)
    as He' by (by destruct (run_tool _ c backend ctx w) as [[?|?] w']).
  apply run_tool_events in He' as [?|[[Heq _]|[-> _]]];
    [by left | by destruct servers_differ | by right | by left].
Qed.

(** X9: the events of a reachable world. In orchestrator_final.py's
    gateway no notification is ever emitted: every event is a forwarded
    call. In orchestrator.py's gateway the notifications only occur as the
    whole triple tool, resource, prompt list-changed, in that order: the
    events are a sequence of such triples and single forwarded calls. *)
Theorem reachable_events :
  (∀ w, reachable final_server w →
        Forall (λ e, is_forward e = true) (emitted w)) ∧
  (∀ w, reachable orchestrator_server w →
        ∃ blocks,
          emitted w = concat blocks ∧
          Forall (λ b, b = notifications ∨ ∃ t a, b = [Forwarded t a])
                 blocks).
Proof.
  split.
  - intros w Hw. induction Hw as [|w r Hw IH]; [by constructor|].
    apply Forall_forall. intros e He.
    apply final_handle_events in He as [He|He]; [|done].
    by apply (proj1 (Forall_forall _ _) IH).
  - intros w Hw. induction Hw as [|w r Hw (blocks & Hb & Hall)].
    { by exists []. }
    destruct (orchestrator_handle_emitted r w) as (evs & Hev & Hsel).
    assert (∃ more, evs = concat more ∧
              Forall (λ b, b = notifications ∨ ∃ t a, b = [Forwarded t a])
                     more) as (more & -> & Hmore).
    { destruct (selected_by r).
      - subst evs. exists [notifications]. split; [done|].
        repeat constructor.
      - clear Hev. induction evs as [|e evs IHe]; [by exists []|].
        apply Forall_cons in Hsel as [He Hrest].
        destruct (IHe Hrest) as (more & -> & Hmore).
        destruct e as [| | |t a]; try done.
        exists ([Forwarded t a] :: more). split; [done|].
        constructor; [|done]. right. by exists t, a. }
    exists (blocks ++ more). split.
    + by rewrite Hev, Hb, concat_app.
    + by apply Forall_app.
Qed.

Lemma reachable_events_witness :
  Forall (λ e, is_forward e = true)
    (emitted (run final_server
                [select (session "s1") "invoicing";
                 CallTool (session "s1") "invoicing_get_invoice" ∅
                          (Returned JNull)] initial_world)).
Proof.
  apply reachable_events, reachable_run, reachable_initial.
Defined.

(** ** Error messages *)

Lemma append_cons a s q : String a s +:+ q = String a (s +:+ q).
Proof. reflexivity. Qed.

Lemma prefix_append s q : String.prefix s (s +:+ q) = true.
Proof.
  induction s as [|a s IH]; [by destruct q|].
  rewrite append_cons. simpl. by destruct (ascii_dec a a).
Qed.

Lemma contains_prefix hay needle :
  String.prefix needle hay = true → contains hay needle = true.
Proof. destruct hay; simpl; by intros ->. Qed.

Lemma contains_here s q : contains (s +:+ q) s = true.
Proof. apply contains_prefix, prefix_append. Qed.

Lemma contains_later p x s : contains x s = true → contains (p +:+ x) s = true.
Proof.
  intros Hx. induction p as [|a p IH]; [done|].
  rewrite append_cons. simpl. rewrite IH. apply orb_true_r.
Qed.

Lemma contains_self s : contains s s = true.
Proof.
  apply contains_prefix.
  induction s as [|a s IH]; [done|]. simpl. by destruct (ascii_dec a a).
Qed.

Lemma contains_join sep l x : x ∈ l → contains (join sep l) x = true.
Proof.
  unfold join. induction l as [|y l IH]; [by intros ?%elem_of_nil|].
  intros [-> | Hin]%elem_of_cons.
  - destruct l; simpl; [apply contains_self | apply contains_here].
  - destruct l as [|z l]; [by apply elem_of_nil in Hin|].
    change (String.concat sep (y :: z :: l))
      with (y +:+ sep +:+ String.concat sep (z :: l)).
    by apply contains_later, contains_later, IH.
Qed.

(** X10: what a rejection tells the caller. orchestrator.py's middleware
    either hands the call on or raises one error, whose message contains
    the tool name and the caller's stored domain ("none" without one).
    orchestrator_final.py's middleware either hands the call on, or raises
    the fixed no-domain error, or raises an error whose message contains the
    tool name, the caller's stored domain and the name of every tool in
    that domain's table. Neither changes the world when it rejects. *)
Theorem rejection_messages A ctx (call_next : MiddlewareContext → M A) w :
  let tool := message_name ctx in
  let stored :=
    SESSION_DOMAIN w !! py_or (middleware_session_id ctx) EmptyString in
  (Orchestrator.on_call_tool ctx call_next w = call_next ctx w ∨
   ∃ e, Orchestrator.on_call_tool ctx call_next w = (Raised e, w) ∧
        contains (message e) tool = true ∧
        contains (message e) (default "none" stored) = true) ∧
  (Final.on_call_tool ctx call_next w = call_next ctx w ∨
   Final.on_call_tool ctx call_next w = (Raised Final.no_domain_selected, w) ∨
   ∃ e d allowed,
     Final.on_call_tool ctx call_next w = (Raised e, w) ∧
     stored = Some d ∧ Final.DOMAIN_TOOLS !! d = Some allowed ∧
     contains (message e) tool = true ∧
     contains (message e) d = true ∧
     ∀ t, t ∈ allowed → contains (message e) t = true).
Proof.
  intros tool stored. split.
  - destruct (Orchestrator._is_allowed_tool tool (middleware_session_id ctx)
                (SESSION_DOMAIN w)) eqn:Ha.
    + left. by apply orchestrator_call_allowed.
    + right. eexists. split; [by apply orchestrator_call_denied|].
      cbv [message Orchestrator.not_available]. split.
      * apply contains_later, contains_here.
      * do 4 apply contains_later. apply contains_here.
  - unfold Final.on_call_tool. fold tool.
    case_bool_decide as Hb; [by left|].
    unfold_monad. simpl.
    destruct (truthy (middleware_session_id ctx)); simpl; [|by right; left].
    fold stored. destruct stored as [d|] eqn:Hst; [|by right; left].
    destruct (Final.DOMAIN_TOOLS !! d) as [allowed|] eqn:Htab; [|by left].
    case_bool_decide as Hin; [|by left].
    right. right. eexists _, d, allowed. split; [done|].
    split; [done|]. split; [done|].
    cbv [message Final.not_available]. split; [|split].
    + apply contains_later, contains_here.
    + do 3 apply contains_later. apply contains_here.
    + intros t Ht. do 6 apply contains_later. apply contains_join.
      unfold sorted. rewrite merge_sort_Permutation. by apply elem_of_elements.
Qed.

Lemma rejection_messages_witness :
  ∃ e, Final.on_call_tool (calling (session "s1") "users_get_user")
         (λ _, list_domains) s1_products = (Raised e, s1_products) ∧
       contains (message e) "products_get_product" = true.
Proof.
  destruct (rejection_messages _ (calling (session "s1") "users_get_user")
              (λ _, list_domains) s1_products) as [_ [H | [H | H]]].
  - vm_compute in H. discriminate H.
  - vm_compute in H. discriminate H.
  - destruct H as (e & d & allowed & He & Hst & Htab & _ & _ & Hall).
    exists e. split; [exact He|]. apply Hall.
    injection Hst as <-. injection Htab as <-.
    apply (bool_decide_unpack _). vm_compute. exact I.
Defined.

(** * orchestrator_v2.py *)

Lemma prefix_append_assoc a b c : String.prefix (a +:+ b) (a +:+ b +:+ c) = true.
Proof.
  induction a as [|x a IH]; [exact (prefix_append b c)|].
  rewrite !append_cons. simpl. by destruct (ascii_dec x x).
Qed.

Lemma qualified_operation d t : operation_of d (V2.qualified d t) = true.
Proof. apply prefix_append_assoc. Qed.

(** ** Listing under backend names *)

(** X5: the listing filters test [tool.name]. When the tool manager lists
    the mounted tools under their backend names, so that no listed name
    begins with a registry domain and the separator, selecting a domain
    changes nothing in what is listed: in both variants, for every caller
    and every store that holds registry keys only, the listing is the
    built-ins among the catalog. A call carries the qualified name, and
    orchestrator.py lets a caller with domain [d] selected call every name
    qualified with [d]: such a caller may call tools it is never shown. *)
Theorem backend_names_are_never_listed S ctx downstream w :
  variant S →
  registry_valued (SESSION_DOMAIN w) →
  (∀ t d, t ∈ downstream → d ∈ keys DOMAINS →
          operation_of d (name t) = false) →
  listing S ctx downstream w =
    Returned (filter (λ t, name t ∈ ORCHESTRATOR_TOOLS) downstream) ∧
  (∀ A s d t arguments (call_next : MiddlewareContext → M A),
     middleware_session_id ctx = Some s → s ≠ EmptyString →
     SESSION_DOMAIN w !! s = Some d →
     let call := mkMiddlewareContext (fastmcp_context ctx)
                   (V2.qualified d t) arguments in
     Orchestrator.on_call_tool call call_next w = call_next call w).
Proof.
  intros HS Hreg Hnames. split.
  - destruct HS as [-> | ->].
    + rewrite listing_final.
      assert (Final.domain_tools (middleware_session_id ctx)
                (SESSION_DOMAIN w) downstream = []) as ->;
        [|by rewrite app_nil_r].
      unfold Final.domain_tools.
      destruct (truthy _); [|done].
      destruct (SESSION_DOMAIN w !! _) as [d|]; [|done].
      destruct (Final.DOMAIN_TOOLS !! d) as [allowed|] eqn:Htab; [|done].
      induction downstream as [|t l IH]; [done|].
      rewrite filter_cons_False.
      * apply IH. intros t' d' Ht'. apply Hnames. by right.
      * intros Hin. apply (final_table_operation d allowed) in Hin; [|done].
        rewrite (Hnames t d) in Hin; [done | by left |].
        by apply (table_registry d allowed).
    + rewrite listing_orchestrator. f_equal.
      induction downstream as [|t l IH]; [done|].
      assert (Orchestrator._is_allowed_tool (name t)
                (middleware_session_id ctx) (SESSION_DOMAIN w)
              ↔ name t ∈ ORCHESTRATOR_TOOLS) as Hiff.
      { unfold Orchestrator._is_allowed_tool.
        case_bool_decide as Hb; [done|].
        destruct (middleware_session_id ctx) as [[|a s]|]; simpl; try done.
        destruct (SESSION_DOMAIN w !! String a s) as [[|b d]|] eqn:Hsel;
          simpl; try done.
        pose proof (Hnames t (String b d)) as Hop. unfold operation_of in Hop.
        rewrite Hop; [done | by left | by apply (Hreg (String a s))]. }
      rewrite !filter_cons. destruct (decide (Orchestrator._is_allowed_tool _ _ _)),
        (decide (name t ∈ ORCHESTRATOR_TOOLS)); try tauto.
      * f_equal. apply IH. intros t' d' Ht'. apply Hnames. by right.
      * apply IH. intros t' d' Ht'. apply Hnames. by right.
  - intros A s d t arguments call_next Hctx Hs Hsel call.
    apply orchestrator_call_allowed. apply Is_true_true.
    apply (orchestrator_allowed_with_selection call _ s d); try done.
    + by apply (Hreg s).
    + right. simpl. by rewrite qualified_operation.
Qed.

Lemma backend_names_are_never_listed_witness :
  listing orchestrator_server (calling (session "s1") EmptyString)
    mounted_catalog s1_invoicing =
    Returned (tools_named
      [ "list_domains"; "get_session_status"; "select_domain" ]) ∧
  Orchestrator.on_call_tool
    (calling (session "s1") "invoicing_create_invoice")
    (λ _, list_domains) s1_invoicing =
    (Returned ["invoicing"; "products"; "users"], s1_invoicing).
Proof.
  destruct (backend_names_are_never_listed orchestrator_server
              (calling (session "s1") EmptyString) mounted_catalog
              s1_invoicing) as [Hlist Hcall].
  - by right.
  - intros s d. unfold s1_invoicing. simpl.
    intros [<- <-]%lookup_singleton_Some. rewrite keys_DOMAINS. auto.
  - intros t d Ht Hd. rewrite keys_DOMAINS in Hd.
    unfold mounted_catalog, tools_named in Ht.
    apply list_elem_of_fmap in Ht as (n & -> & Hn). simpl.
    rewrite !elem_of_cons, elem_of_nil in Hn.
    destruct Hd as [-> | [-> | ->]];
      repeat (destruct Hn as [-> | Hn]; [reflexivity|]); done.
  - split.
    + etrans; [apply Hlist | vm_compute; reflexivity].
    + etrans.
      * apply (Hcall _ "s1" "invoicing" (mkTool "create_invoice" EmptyString)
                 ∅ (λ _, list_domains)); [reflexivity | discriminate
                                          | reflexivity].
      * reflexivity.
Defined.

(** X11: as registered, [list_available_tools] never returns its report.
    The function itself never raises and never changes the world, whatever
    the backend does: the dict it builds holds the caller's session key
    under "session_id", the stored selection under "selected_domain", the
    four orchestrator tool names, and under "domain_tools" the backend's
    tools, each prefixed with the selected domain and the separator, when
    the selected domain has a client and the backend answers; a backend
    failure is put under "error", with no domain tools. But the str under
    "session_id" is not a list of str, so no dict it builds has the
    declared return type [dict[str, list[str]]], and the registered tool
    fails the output check on every call, with the world unchanged. *)
Theorem list_available_tools_reports invalid_output clients answer ctx w :
  V2.list_available_tools_tool invalid_output clients answer ctx w
    = (Raised invalid_output, w) ∧
  ∃ r,
    V2.list_available_tools clients answer ctx w = (Returned r, w) ∧
    V2.declared_return_type r = false ∧
    r !! "session_id" = Some (V2.Str (session_key ctx)) ∧
    r !! "selected_domain" =
      Some (V2.optional_str (SESSION_DOMAIN w !! session_key ctx)) ∧
    r !! "orchestrator_tools" =
      Some (V2.StrList [ "list_domains"; "get_session_status";
                         "select_domain"; "list_available_tools" ]) ∧
    (∃ names,
       r !! "domain_tools" = Some (V2.StrList names) ∧
       ∀ n, n ∈ names →
            ∃ d, SESSION_DOMAIN w !! session_key ctx = Some d ∧
                 operation_of d n = true) ∧
    match SESSION_DOMAIN w !! session_key ctx with
    | Some (String a d) =>
        match clients !! String a d with
        | Some url =>
            match answer url with
            | Returned tools =>
                r !! "domain_tools" =
                  Some (V2.StrList (V2.qualified (String a d) <$> tools)) ∧
                r !! "error" = None
            | Raised e =>
                r !! "domain_tools" = Some (V2.StrList []) ∧
                r !! "error" = Some (V2.Str (message e))
            end
        | None =>
            r !! "domain_tools" = Some (V2.StrList []) ∧ r !! "error" = None
        end
    | _ => r !! "domain_tools" = Some (V2.StrList []) ∧ r !! "error" = None
    end.
Proof.
  assert (∃ r,
    V2.list_available_tools clients answer ctx w = (Returned r, w) ∧
    r !! "session_id" = Some (V2.Str (session_key ctx)) ∧
    r !! "selected_domain" =
      Some (V2.optional_str (SESSION_DOMAIN w !! session_key ctx)) ∧
    r !! "orchestrator_tools" =
      Some (V2.StrList [ "list_domains"; "get_session_status";
                         "select_domain"; "list_available_tools" ]) ∧
    (∃ names,
       r !! "domain_tools" = Some (V2.StrList names) ∧
       ∀ n, n ∈ names →
            ∃ d, SESSION_DOMAIN w !! session_key ctx = Some d ∧
                 operation_of d n = true) ∧
    match SESSION_DOMAIN w !! session_key ctx with
    | Some (String a d) =>
        match clients !! String a d with
        | Some url =>
            match answer url with
            | Returned tools =>
                r !! "domain_tools" =
                  Some (V2.StrList (V2.qualified (String a d) <$> tools)) ∧
                r !! "error" = None
            | Raised e =>
                r !! "domain_tools" = Some (V2.StrList []) ∧
                r !! "error" = Some (V2.Str (message e))
            end
        | None =>
            r !! "domain_tools" = Some (V2.StrList []) ∧ r !! "error" = None
        end
    | _ => r !! "domain_tools" = Some (V2.StrList []) ∧ r !! "error" = None
    end) as (r & Hr & Hsid & Hrest).
  { unfold V2.list_available_tools. unfold_monad. simpl.
    destruct (SESSION_DOMAIN w !! session_key ctx) as [[|a d]|] eqn:Hsel;
      simpl.
    - eexists. split; [reflexivity|]. repeat split; try done.
      exists []. split; [done|]. by intros n ?%elem_of_nil.
    - destruct (clients !! String a d) as [url|] eqn:Hc.
      + destruct (answer url) as [tools|e] eqn:Ha.
        * eexists. split; [reflexivity|]. repeat split; try done.
          eexists. split; [done|].
          intros n [t [-> _]]%list_elem_of_fmap. eexists. split; [done|].
          apply qualified_operation.
        * eexists. split; [reflexivity|]. repeat split; try done.
          exists []. split; [done|]. by intros n ?%elem_of_nil.
      + eexists. split; [reflexivity|]. repeat split; try done.
        exists []. split; [done|]. by intros n ?%elem_of_nil.
    - eexists. split; [reflexivity|]. repeat split; try done.
      exists []. split; [done|]. by intros n ?%elem_of_nil. }
  assert (V2.declared_return_type r = false) as Hbad.
  { unfold V2.declared_return_type. apply bool_decide_eq_false.
    intros Hall. by apply (map_Forall_lookup_1 _ _ _ _ Hall) in Hsid. }
  split.
  - unfold V2.list_available_tools_tool. unfold_monad.
    by rewrite Hr, Hbad.
  - exists r. split; [done|]. split; [done|]. split; [done|]. exact Hrest.
Qed.

Lemma list_available_tools_reports_witness :
  V2.list_available_tools_tool (ToolError "Output validation error")
    (V2.setup_domain_clients (λ _, false))
    (λ _, Returned (tools_named ["search_products"; "get_product";
                                 "check_stock"]))
    (session "s1") s1_products
  = (Raised (ToolError "Output validation error"), s1_products).
Proof.
  apply (list_available_tools_reports (ToolError "Output validation error")
           (V2.setup_domain_clients (λ _, false))
           (λ _, Returned (tools_named ["search_products"; "get_product";
                                        "check_stock"]))
           (session "s1") s1_products).
Defined.

(** X12: qualified names do not collide. For a registry domain, prefixing
    is injective in the backend tool name and never yields the name of a
    built-in tool; for two distinct registry domains no qualified name of
    one is a qualified name of the other. *)
Theorem qualified_names_distinct d1 d2 t1 t2 :
  d1 ∈ keys DOMAINS → d2 ∈ keys DOMAINS →
  (V2.qualified d1 t1 = V2.qualified d1 t2 → name t1 = name t2) ∧
  (V2.qualified d1 t1 ∉ ORCHESTRATOR_TOOLS) ∧
  (d1 ≠ d2 → V2.qualified d1 t1 ≠ V2.qualified d2 t2).
Proof.
  intros H1 H2. split; [|split].
  - unfold V2.qualified. intros Heq.
    by apply (inj (String.app d1)), (inj (String.app "_")) in Heq.
  - intros Hb. pose proof (qualified_operation d1 t1) as Hop.
    by rewrite (builtin_not_operation d1) in Hop.
  - intros Hne Heq. pose proof (qualified_operation d1 t1) as Hop1.
    pose proof (qualified_operation d2 t2) as Hop2. rewrite <- Heq in Hop2.
    by rewrite (operation_of_disjoint d1 d2 _ H1 H2 Hne Hop2) in Hop1.
Qed.

Lemma qualified_names_distinct_witness :
  V2.qualified "users" (mkTool "get_user" EmptyString) ≠
  V2.qualified "products" (mkTool "get_user" EmptyString).
Proof.
  apply (qualified_names_distinct "users" "products").
  - rewrite keys_DOMAINS. auto.
  - rewrite keys_DOMAINS. auto.
  - discriminate.
Defined.

(** X13: [setup_domain_clients] gives a domain a client exactly when it is
    a registry domain whose client could be built, with the registry's url,
    whatever happens to the other domains; when nothing raises, every
    registry domain has a client. *)
Theorem setup_domain_clients_registry raises :
  (∀ d url,
     V2.setup_domain_clients raises !! d = Some url ↔
     (d, url) ∈ DOMAINS ∧ raises url = false) ∧
  ((∀ url, raises url = false) →
   ∀ d, d ∈ keys DOMAINS → is_Some (V2.setup_domain_clients raises !! d)).
Proof.
  assert (∀ d url,
     V2.setup_domain_clients raises !! d = Some url ↔
     (d, url) ∈ DOMAINS ∧ raises url = false) as Hchar.
  { intros d url. unfold V2.setup_domain_clients, DOMAINS. simpl.
    rewrite !elem_of_cons, elem_of_nil.
    destruct (raises "http://127.0.0.1:9101/mcp") eqn:R1,
             (raises "http://127.0.0.1:9102/mcp") eqn:R2,
             (raises "http://127.0.0.1:9103/mcp") eqn:R3;
      rewrite ?lookup_insert_Some, ?lookup_empty;
      (split; [intros H | intros [H Hr]]);
      repeat match goal with
             | H : _ ∨ _ |- _ => destruct H as [H|H]
             | H : _ ∧ _ |- _ => destruct H
             | H : (_, _) = (_, _) |- _ => injection H as ??; subst
             | H : False |- _ => destruct H
             end; try congruence; try (split; [tauto | congruence]).
    all: subst; try (split; [tauto | assumption]).
    all: repeat first [ by left | right; split; [discriminate|] ]. }
  split; [done|].
  intros Hok d Hd. apply list_elem_of_fmap in Hd as [[d' url] [-> Hin]].
  exists url. apply Hchar. by split.
Qed.

Lemma setup_domain_clients_registry_witness :
  is_Some (V2.setup_domain_clients (λ _, false) !! "products").
Proof.
  apply (setup_domain_clients_registry (λ _, false)).
  - done.
  - rewrite keys_DOMAINS. auto.
Defined.

(** * Startup *)

Lemma keys_NoDup : NoDup (keys DOMAINS).
Proof. apply (bool_decide_unpack _). vm_compute. exact I. Qed.

(** X14: [setup_domain_servers] mounts a domain exactly when mounting it
    did not raise, whatever happens to the other domains: the mounts are
    the registry entries that did not fail, in registry order, each prefix
    once; the log starts with the set-up line and has, for every domain
    that failed, the warning naming the domain and the exception. *)
Theorem setup_domain_servers_mounts failure :
  let mounts := (Startup.setup_domain_servers failure).1 in
  let log := (Startup.setup_domain_servers failure).2 in
  mounts = filter (λ p, failure p.2 = None) DOMAINS ∧
  (∀ d url, (d, url) ∈ mounts ↔ (d, url) ∈ DOMAINS ∧ failure url = None) ∧
  mounts `sublist_of` DOMAINS ∧
  NoDup (fst <$> mounts) ∧
  head log = Some (Startup.INFO, "Setting up domain server proxies...") ∧
  (∀ d url e, (d, url) ∈ DOMAINS → failure url = Some e →
     (Startup.WARNING, "⚠ Failed to mount " +:+ d +:+ " domain: " +:+ e)
       ∈ log).
Proof.
  intros mounts log.
  assert (mounts = filter (λ p, failure p.2 = None) DOMAINS) as Hm.
  { subst mounts. unfold Startup.setup_domain_servers, DOMAINS. simpl.
    rewrite !filter_cons, filter_nil. simpl.
    destruct (failure "http://127.0.0.1:9101/mcp"),
             (failure "http://127.0.0.1:9102/mcp"),
             (failure "http://127.0.0.1:9103/mcp"); reflexivity. }
  split; [done|]. split; [|split; [|split; [|split]]].
  - intros d url. rewrite Hm, list_elem_of_filter. simpl. tauto.
  - rewrite Hm. apply sublist_filter.
  - apply (sublist_NoDup _ (keys DOMAINS)); [apply keys_NoDup|].
    unfold keys. apply fmap_sublist. rewrite Hm. apply sublist_filter.
  - subst log. unfold Startup.setup_domain_servers, DOMAINS. simpl.
    destruct (failure "http://127.0.0.1:9101/mcp"),
             (failure "http://127.0.0.1:9102/mcp"),
             (failure "http://127.0.0.1:9103/mcp"); reflexivity.
  - intros d url e Hin Hf. subst log.
    unfold Startup.setup_domain_servers. unfold DOMAINS in *. simpl.
    rewrite !elem_of_cons, elem_of_nil in Hin.
    destruct (failure "http://127.0.0.1:9101/mcp") eqn:F1,
             (failure "http://127.0.0.1:9102/mcp") eqn:F2,
             (failure "http://127.0.0.1:9103/mcp") eqn:F3;
      simpl;
      destruct Hin as [[= -> ->] | [[= -> ->] | [[= -> ->] | []]]];
      try congruence;
      rewrite ?elem_of_cons;
      match goal with
      | F : failure ?u = Some ?x, H : failure ?u = Some e |- _ =>
          rewrite F in H; injection H as ->
      end; auto 10.
Qed.

Lemma setup_domain_servers_mounts_witness :
  ("users", "http://127.0.0.1:9103/mcp")
    ∈ (Startup.setup_domain_servers
         (λ url, if bool_decide (url = "http://127.0.0.1:9102/mcp")
                 then Some "refused" else None)).1.
Proof.
  apply (setup_domain_servers_mounts
           (λ url, if bool_decide (url = "http://127.0.0.1:9102/mcp")
                   then Some "refused" else None)).
  split; [|reflexivity]. unfold DOMAINS. rewrite !elem_of_cons. auto.
Defined.

Lemma check_domain_servers_status failure :
  (Startup.check_domain_servers failure).1 =
    (λ p, (p.1, bool_decide (failure p.2 = None))) <$> DOMAINS.
Proof.
  unfold Startup.check_domain_servers, DOMAINS. simpl.
  destruct (failure "http://127.0.0.1:9101/mcp"),
           (failure "http://127.0.0.1:9102/mcp"),
           (failure "http://127.0.0.1:9103/mcp"); reflexivity.
Qed.

Lemma available_unavailable (status : list (string * bool)) :
  Startup.available_domains status ++ Startup.unavailable_domains status
    ≡ₚ fst <$> status.
Proof.
  unfold Startup.available_domains, Startup.unavailable_domains.
  induction status as [|[d [|]] status IH]; [done| |].
  - rewrite filter_cons_True, filter_cons_False by done. simpl. by rewrite IH.
  - rewrite filter_cons_False, filter_cons_True by done. simpl.
    rewrite <- Permutation_middle. by rewrite IH.
Qed.

(** X15: the availability check never aborts and accounts for every
    domain. Whatever the probes raise, [check_domain_servers] gives each
    registry domain a status, in registry order, true exactly when its
    probe succeeded; the available and unavailable lists of [main_async]
    together are the registry keys, each domain in exactly one of them; and
    [main_async] always starts with the starting line and ends by logging
    that the setup is complete, in orchestrator_final.py and, whatever the
    mounts and the probes raise independently of each other, in
    orchestrator.py, which sets the servers up first. *)
Theorem availability_check failure :
  let status := (Startup.check_domain_servers failure).1 in
  fst <$> status = keys DOMAINS ∧
  (∀ d b, (d, b) ∈ status ↔
          ∃ url, (d, url) ∈ DOMAINS ∧ b = bool_decide (failure url = None)) ∧
  Startup.available_domains status ++ Startup.unavailable_domains status
    ≡ₚ keys DOMAINS ∧
  (∀ d, d ∈ Startup.available_domains status →
        d ∉ Startup.unavailable_domains status) ∧
  (∀ d, d ∈ Startup.available_domains status ↔
        ∃ url, (d, url) ∈ DOMAINS ∧ failure url = None) ∧
  head (Startup.main_async failure)
    = Some (Startup.INFO, "Starting FastMCP Orchestrator...") ∧
  last (Startup.main_async failure)
    = Some (Startup.INFO, "Orchestrator setup complete!") ∧
  (∀ mount_failure,
     head (Startup.main_async_with_setup mount_failure failure).2
       = Some (Startup.INFO, "Starting FastMCP Orchestrator...") ∧
     last (Startup.main_async_with_setup mount_failure failure).2
       = Some (Startup.INFO, "Orchestrator setup complete!")).
Proof.
  intros status.
  assert (fst <$> status = keys DOMAINS) as Hkeys.
  { subst status. rewrite check_domain_servers_status.
    unfold keys. rewrite <- list_fmap_compose. done. }
  assert (∀ d b, (d, b) ∈ status ↔
          ∃ url, (d, url) ∈ DOMAINS ∧ b = bool_decide (failure url = None))
    as Hst.
  { intros d b. subst status. rewrite check_domain_servers_status.
    rewrite list_elem_of_fmap. split.
    - intros ([d' url] & [= -> ->] & Hin). by exists url.
    - intros (url & Hin & ->). by exists (d, url). }
  assert (Startup.available_domains status ++
          Startup.unavailable_domains status ≡ₚ keys DOMAINS) as Hperm
    by (by rewrite available_unavailable, Hkeys).
  split; [done|]. split; [done|]. split; [done|].
  split; [|split; [|split; [|split]]].
  - apply NoDup_app. rewrite Hperm. apply keys_NoDup.
  - intros d. unfold Startup.available_domains.
    rewrite list_elem_of_fmap. split.
    + intros ([d' b] & -> & [Hb Hin]%list_elem_of_filter). simpl in *.
      subst b. apply Hst in Hin as (url & Hin & Hb). exists url.
      split; [done|]. symmetry in Hb. by apply bool_decide_eq_true in Hb.
    + intros (url & Hin & Hf). exists (d, true). split; [done|].
      apply list_elem_of_filter. split; [done|]. apply Hst. exists url.
      split; [done|]. symmetry. by apply bool_decide_eq_true.
  - unfold Startup.main_async.
    by destruct (Startup.check_domain_servers failure).
  - unfold Startup.main_async.
    destruct (Startup.check_domain_servers failure) as [st log].
    unfold Startup.summary. simpl.
    rewrite !app_assoc, app_comm_cons. apply last_snoc.
  - intros mount_failure. unfold Startup.main_async_with_setup.
    destruct (Startup.setup_domain_servers mount_failure)
      as [mounts setup_log].
    destruct (Startup.check_domain_servers failure) as [st log]. simpl.
    split; [done|]. unfold Startup.summary.
    rewrite !app_assoc, app_comm_cons. apply last_snoc.
Qed.

Lemma availability_check_witness :
  "invoicing" ∉ Startup.unavailable_domains
                  (Startup.check_domain_servers
                     (λ url, if bool_decide (url = "http://127.0.0.1:9102/mcp")
                             then Some "refused" else None)).1.
Proof.
  destruct (availability_check
              (λ url, if bool_decide (url = "http://127.0.0.1:9102/mcp")
                      then Some "refused" else None))
    as (_ & _ & _ & Hdis & Hav & _).
  apply Hdis, Hav. exists "http://127.0.0.1:9101/mcp".
  split; [|reflexivity]. unfold DOMAINS. rewrite !elem_of_cons. auto.
Defined.

(** * test_middleware.py *)

(** X16: the tag-keyed middleware of test_middleware.py decides as
    orchestrator.py's name-keyed one whenever the "orchestrator" tag is
    carried by exactly the tools named in [ORCHESTRATOR_TOOLS]; and a tool
    without that tag is decided by the session's prefix alone, even when
    it bears a built-in name. *)
Theorem tag_scope_agrees tool tags sid sessions :
  let tagged :=
    match tags with
    | Some ts => bool_decide ("orchestrator" ∈ ts)
    | None => false
    end in
  ((tagged = true ↔ tool ∈ ORCHESTRATOR_TOOLS) →
   TestMiddleware._is_allowed_tool tool tags sid sessions =
     Orchestrator._is_allowed_tool tool sid sessions) ∧
  (tagged = true →
   TestMiddleware._is_allowed_tool tool tags sid sessions = true) ∧
  (tagged = false →
   TestMiddleware._is_allowed_tool tool tags sid sessions =
     match sid with
     | Some (String a s) =>
         match sessions !! String a s with
         | Some (String b d) => operation_of (String b d) tool
         | _ => false
         end
     | _ => false
     end).
Proof.
  intros tagged.
  assert ((match tags with
           | Some ts => bool_decide (ts ≠ ∅) && bool_decide ("orchestrator" ∈ ts)
           | None => false
           end) = tagged) as Htag.
  { subst tagged. destruct tags as [ts|]; [|done].
    destruct (decide ("orchestrator" ∈ ts)) as [Hin|Hin].
    - rewrite !bool_decide_eq_true_2; [done..|]. intros ->.
      by apply not_elem_of_empty in Hin.
    - rewrite (bool_decide_eq_false_2 (_ ∈ _)) by done. apply andb_false_r. }
  unfold TestMiddleware._is_allowed_tool, Orchestrator._is_allowed_tool.
  rewrite Htag. split; [|split].
  - intros Hiff. destruct tagged.
    + rewrite bool_decide_eq_true_2; [done | by apply Hiff].
    + rewrite bool_decide_eq_false_2; [done|]. rewrite <- Hiff. done.
  - by intros ->.
  - intros ->. destruct sid as [[|a s]|]; try done. simpl.
    by destruct (sessions !! String a s) as [[|b d]|].
Qed.

Lemma tag_scope_agrees_witness :
  TestMiddleware._is_allowed_tool "list_domains" None (Some "s1")
    {["s1" := "invoicing"]} = false.
Proof.
  etrans.
  - by apply (tag_scope_agrees "list_domains" None (Some "s1")
                {["s1" := "invoicing"]}).
  - reflexivity.
Defined.

(** * test_orchestrator.py *)

Lemma port_loop_spec port_open i n :
  let '(opened, probes) := TestHarness.port_loop port_open i n in
  (opened = true ↔ ∃ j, i ≤ j < i + n ∧ port_open j = true) ∧
  i ≤ probes ≤ i + n ∧
  (opened = true → i < probes) ∧
  (opened = false → probes = i + n).
Proof.
  revert i. induction n as [|n IH]; intros i; simpl.
  { split; [|split; [lia|split; [done|lia]]].
    split; [done|]. intros (j & ? & _). lia. }
  destruct (port_open i) eqn:Hi.
  - split; [|split; [lia|split; [lia|done]]].
    split; [|done]. intros _. exists i. split; [lia | done].
  - specialize (IH (S i)).
    destruct (TestHarness.port_loop port_open (S i) n) as [opened probes].
    destruct IH as (Hiff & Hb & Ht & Hf).
    split; [|split; [lia|split]].
    + split.
      * intros Ho. apply Hiff in Ho as (j & ? & ?).
        exists j. split; [lia | done].
      * intros (j & Hj & Hpj). apply Hiff.
        destruct (decide (j = i)) as [->|]; [congruence|].
        exists j. split; [lia | done].
    + intros Ho. apply Ht in Ho. lia.
    + intros Ho. apply Hf in Ho. lia.
Qed.

Lemma mcp_loop_result mcp_ok max_retries delay a n :
  let '(ok, attempts, _) :=
    TestHarness.mcp_loop mcp_ok max_retries delay a n in
  (ok = true ↔ ∃ j, a ≤ j < a + n ∧ mcp_ok j = true) ∧
  a ≤ attempts ≤ a + n.
Proof.
  revert a. induction n as [|n IH]; intros a; simpl.
  { split; [|lia]. split; [done|]. intros (j & ? & _). lia. }
  destruct (mcp_ok a) eqn:Ha.
  - split; [|lia]. split; [|done]. intros _. exists a. split; [lia | done].
  - specialize (IH (S a)).
    destruct (TestHarness.mcp_loop mcp_ok max_retries delay (S a) n)
      as [[ok attempts] slept].
    destruct IH as (Hiff & Hb). split; [|lia]. split.
    + intros Ho. apply Hiff in Ho as (j & ? & ?).
      exists j. split; [lia | done].
    + intros (j & Hj & Hpj). apply Hiff.
      destruct (decide (j = a)) as [->|]; [congruence|].
      exists j. split; [lia | done].
Qed.

Lemma mcp_loop_slept mcp_ok max_retries delay a n :
  (0 ≤ delay)%Z →
  (0 ≤ (TestHarness.mcp_loop mcp_ok max_retries delay a n).2 ≤
     delay * Z.max 0 (Z.min (Z.of_nat (a + n)) (max_retries - 1)
                      - Z.of_nat a))%Z.
Proof.
  intros Hdelay. revert a. induction n as [|n IH]; intros a; simpl.
  { split; [done|]. apply Z.mul_nonneg_nonneg; lia. }
  destruct (mcp_ok a) eqn:Ha; simpl.
  { split; [done|]. apply Z.mul_nonneg_nonneg; lia. }
  specialize (IH (S a)).
  destruct (TestHarness.mcp_loop mcp_ok max_retries delay (S a) n)
    as [[ok attempts] slept].
  simpl in *.
  set (X := Z.max 0 (Z.min (Z.of_nat (S (a + n))) (max_retries - 1)
                     - Z.of_nat (S a))) in *.
  set (Y := Z.max 0 (Z.min (Z.of_nat (a + S n)) (max_retries - 1)
                     - Z.of_nat a)).
  case_bool_decide as Hlt.
  - assert (Y = (X + 1)%Z) as -> by (subst X Y; lia).
    rewrite Z.mul_add_distr_l, Z.mul_1_r. lia.
  - assert (Y = X) as -> by (subst X Y; lia). lia.
Qed.

(** X17: [wait_for_orchestrator_ready] is bounded and says what it found.
    It returns True exactly when one of the ten port probes finds the port
    open and one of the first [max_retries] connection attempts succeeds.
    It probes the port between one and ten times, tries the connection at
    most [max_retries] times and not at all when the port never opens, and
    for a non-negative [delay] the seconds it asks to sleep are at most
    ten plus [delay] for each attempt but the last. *)
Theorem wait_for_orchestrator_ready_bounded port_open mcp_ok max_retries delay :
  let r := TestHarness.wait_for_orchestrator_ready
             port_open mcp_ok max_retries delay in
  (TestHarness.ready r = true ↔
     (∃ i, i < 10 ∧ port_open i = true) ∧
     (∃ a, (Z.of_nat a < max_retries)%Z ∧ mcp_ok a = true)) ∧
  1 ≤ TestHarness.port_probes r ≤ 10 ∧
  (Z.of_nat (TestHarness.mcp_attempts r) ≤ Z.max 0 max_retries)%Z ∧
  ((∀ i, i < 10 → port_open i = false) →
   TestHarness.ready r = false ∧ TestHarness.mcp_attempts r = 0 ∧
   TestHarness.slept r = 10%Z) ∧
  ((0 ≤ delay)%Z →
   (0 ≤ TestHarness.slept r ≤ 10 + delay * Z.max 0 (max_retries - 1))%Z).
Proof.
  intros r. subst r. unfold TestHarness.wait_for_orchestrator_ready.
  pose proof (port_loop_spec port_open 0 10) as Hport.
  destruct (TestHarness.port_loop port_open 0 10) as [opened probes].
  destruct Hport as (Hpiff & Hpb & Hpt & Hpf).
  destruct opened; simpl.
  - specialize (Hpt eq_refl).
    assert (∃ i, i < 10 ∧ port_open i = true) as Hopen.
    { destruct (proj1 Hpiff eq_refl) as (j & ? & ?).
      exists j. split; [lia | done]. }
    pose proof (mcp_loop_result mcp_ok max_retries delay 0
                  (Z.to_nat max_retries)) as Hres.
    pose proof (mcp_loop_slept mcp_ok max_retries delay 0
                  (Z.to_nat max_retries)) as Hslept.
    destruct (TestHarness.mcp_loop mcp_ok max_retries delay 0
                (Z.to_nat max_retries)) as [[ok attempts] slept].
    destruct Hres as (Hiff & Hatt). simpl in *.
    split; [|split; [|split; [|split]]].
    + rewrite Hiff. split.
      * intros (j & ? & ?). split; [done|]. exists j. split; [lia | done].
      * intros (_ & j & ? & ?). exists j. split; [lia | done].
    + lia.
    + lia.
    + intros Hnone. destruct Hopen as (i & Hi & Hpi).
      rewrite Hnone in Hpi by done. discriminate.
    + intros Hd. destruct (Hslept Hd) as [Hlo Hhi].
      assert (slept ≤ delay * Z.max 0 (max_retries - 1))%Z.
      { etrans; [exact Hhi|]. apply Z.mul_le_mono_nonneg_l; lia. }
      lia.
  - specialize (Hpf eq_refl). subst probes.
    split; [|split; [|split; [|split]]].
    + split; [done|]. intros [(i & Hi & Hpi) _].
      assert (false = true) as Habs; [|done].
      apply Hpiff. exists i. split; [lia | done].
    + lia.
    + lia.
    + done.
    + intros Hd.
      assert (0 ≤ delay * Z.max 0 (max_retries - 1))%Z
        by (apply Z.mul_nonneg_nonneg; lia).
      simpl. lia.
Qed.

Lemma wait_for_orchestrator_ready_bounded_witness :
  TestHarness.ready
    (TestHarness.wait_for_orchestrator_ready
       (λ i, bool_decide (i = 2)) (λ a, bool_decide (a = 1)) 15 3) = true ∧
  (TestHarness.slept
     (TestHarness.wait_for_orchestrator_ready
        (λ _, false) (λ _, true) 15 3) = 10)%Z.
Proof.
  destruct (wait_for_orchestrator_ready_bounded
              (λ i, bool_decide (i = 2)) (λ a, bool_decide (a = 1)) 15 3)
    as (Hready & _).
  destruct (wait_for_orchestrator_ready_bounded
              (λ _, false) (λ _, true) 15 3) as (_ & _ & _ & Hnone & _).
  split.
  - apply Hready. split.
    + exists 2. split; [lia | reflexivity].
    + exists 1. split; [lia | reflexivity].
  - by apply Hnone.
Defined.
